(** * Observatorio Guaiba: daily normalisation and lag correlation

    A shallow embedding of the three Python scripts of the repository:

    - [app.py]                   the lag-correlation analyzer
                                 ([calcular_correlacao_com_lag]);
    - [1_processamento_dados.py] the batch script that parses the river and
                                 rainfall tables, resamples them per day and
                                 joins them ([df_rio_diario],
                                 [df_clima_diario], [df_final]);
    - [process_data.py]          the API variant ([processar_dados]).

    Conventions of the embedding.

    - A pandas float cell is an [option Q]: [None] is NaN, [Some q] a number.
      Arithmetic is exact; rounding and the infinities of binary64 are not
      modelled.
    - A timestamp is a number of seconds since 1970-01-01 00:00:00 in the
      proleptic Gregorian calendar; its calendar day is the quotient by
      86400.
    - A Series or DataFrame is the list of its rows in positional order, the
      index being a field of the row.
    - The numeric kernels owned by libraries (text to float, text to
      timestamp, Pearson's coefficient on complete pairs) are the fields of
      the class [Biblioteca]; every property below holds for all of them,
      and [biblioteca_exemplo] is an executable instance.
    - In [Processamento] and [ProcessData] a raw cell is a present text in
      a column of dtype object; [Bruto] reads the parsing lines of the two
      scripts on tables with null cells, missing-value words and value
      columns read as numbers.  The hour code of the rainfall files is
      normalised in [Horario], before the timestamp text is parsed. *)

From Stdlib Require Import String Ascii ZArith QArith List Bool Lia.
Import ListNotations.

Open Scope Z_scope.

(* ================================================================== *)
(** * Python and pandas primitives used by the scripts *)
(* ================================================================== *)

Module Pandas.

(** A float cell: [None] is NaN. *)
Definition float : Type := option Q.
Definition NaN : float := None.

(** [pd.notna] on a scalar. *)
Definition notna (x : float) : bool :=
  match x with Some _ => true | None => false end.

(** Python's [x > y] on floats: false as soon as one side is NaN. *)
Definition float_gt (x y : float) : bool :=
  match x, y with
  | Some a, Some b => negb (Qle_bool a b)
  | _, _ => false
  end.

(** [range(lo, hi)]. *)
Definition py_range (lo hi : Z) : list Z :=
  map (fun i => lo + Z.of_nat i) (seq 0 (Z.to_nat (hi - lo))).

(** The non-NaN cells of a column, in order. *)
Fixpoint validos (l : list float) : list Q :=
  match l with
  | [] => []
  | Some q :: r => q :: validos r
  | None :: r => validos r
  end.

Definition Qsum (l : list Q) : Q := fold_right Qplus 0%Q l.

(** [Series.shift(n)] for n >= 0: positional, the first n cells become NaN. *)
Definition shift (n : nat) (s : list float) : list float :=
  firstn (length s) (repeat NaN n ++ s).

(** The cells a trailing window of [w] rows sees at position [i]:
    positions max(0, i+1-w) .. i. *)
Definition janela (w i : nat) (s : list float) : list float :=
  skipn (S i - w) (firstn (S i) s).

(** [Series.rolling(window=w).sum()]: min_periods defaults to the window
    size, so a cell is NaN unless the window holds [w] non-NaN values. *)
Definition rolling_sum (w : nat) (s : list float) : list float :=
  map (fun i =>
         let obs := validos (janela w i s) in
         if (w <=? length obs)%nat then Some (Qsum obs) else NaN)
      (seq 0 (length s)).

(** Pairwise-complete observations of two columns on the same index. *)
Fixpoint pares_validos (a b : list float) : list (Q * Q) :=
  match a, b with
  | x :: a', y :: b' =>
      match x, y with
      | Some p, Some q => (p, q) :: pares_validos a' b'
      | _, _ => pares_validos a' b'
      end
  | _, _ => []
  end.

(** [Series.fillna(v)]. *)
Definition fillna (v : Q) (x : float) : float :=
  match x with Some q => Some q | None => Some v end.

(** A dict from int to float, in insertion order. *)
Definition dict : Type := list (Z * float).

Fixpoint dict_set (d : dict) (k : Z) (v : float) : dict :=
  match d with
  | [] => [(k, v)]
  | (k', v') :: r =>
      if k' =? k then (k, v) :: r else (k', v') :: dict_set r k v
  end.

Fixpoint dict_get (d : dict) (k : Z) : option float :=
  match d with
  | [] => None
  | (k', v') :: r => if k' =? k then Some v' else dict_get r k
  end.

Definition dict_keys (d : dict) : list Z := map fst d.

(** [d.get] used as a sort key and [d[k]] on a key of [d]: the lookup
    cannot miss there; NaN stands for the impossible miss. *)
Definition dict_item (d : dict) (k : Z) : float :=
  match dict_get d k with Some v => v | None => NaN end.

(** The loop of the builtin [max(iterable, key=f)]: the running maximum is
    replaced only by a strictly greater key. *)
Fixpoint max_desde {A : Type} (key : A -> float) (best : A) (rest : list A) : A :=
  match rest with
  | [] => best
  | x :: r =>
      if float_gt (key x) (key best) then max_desde key x r
      else max_desde key best r
  end.

(** [max(iterable, key=f)]; [None] is the ValueError on an empty iterable. *)
Definition py_max {A : Type} (key : A -> float) (l : list A) : option A :=
  match l with
  | [] => None
  | x :: r => Some (max_desde key x r)
  end.

(** [Series.dropna()] on an indexed column. *)
Definition Serie : Type := list (Z * float).

Definition dropna (s : Serie) : Serie :=
  filter (fun o => notna (snd o)) s.

(** [Series.ffill()]: a NaN cell takes the last value seen before it. *)
Fixpoint ffill_desde (ult : float) (l : list float) : list float :=
  match l with
  | [] => []
  | Some q :: r => Some q :: ffill_desde (Some q) r
  | None :: r => ult :: ffill_desde ult r
  end.

Definition ffill (l : list float) : list float := ffill_desde NaN l.

(** The exceptions that end a script. *)
Inductive excecao : Type := ValueError | KeyError | AttributeError.

Inductive resultado (A : Type) : Type :=
  | Ok (a : A)
  | Erro (e : excecao).
Arguments Ok {A} a.
Arguments Erro {A} e.

Definition ligar {A B : Type} (m : resultado A) (k : A -> resultado B)
  : resultado B :=
  match m with
  | Ok a => k a
  | Erro e => Erro e
  end.

(** [str.replace(old, new)] for a non-empty [old]: occurrences are
    replaced from the left and do not overlap; [skip] counts the
    characters of the current occurrence still to be consumed. *)
Fixpoint str_replace_aux (old new : string) (skip : nat) (s : string) : string :=
  match s with
  | EmptyString => EmptyString
  | String c r =>
      match skip with
      | S n => str_replace_aux old new n r
      | O =>
          if String.prefix old s
          then String.append new
                 (str_replace_aux old new (String.length old - 1) r)
          else String c (str_replace_aux old new 0 r)
      end
  end.

Definition str_replace (old new s : string) : string :=
  str_replace_aux old new 0 s.

Fixpoint zeros (n : nat) : string :=
  match n with
  | O => EmptyString
  | S m => String "0" (zeros m)
  end.

(** [str.zfill(width)]: zeros go after a leading sign. *)
Definition zfill (width : nat) (s : string) : string :=
  let pad := zeros (width - String.length s) in
  match s with
  | String "+" r => String "+" (String.append pad r)
  | String "-" r => String "-" (String.append pad r)
  | _ => String.append pad s
  end.

(** The calendar day of a timestamp. *)
Definition dia_de (t : Z) : Z := t / 86400.

(** The daily bins of [resample('D')]: every day from the first to the
    last day that holds an observation; none for an empty index. *)
Definition dias_cobertos (obs : Serie) : list Z :=
  match obs with
  | [] => []
  | (t, _) :: _ =>
      let ds := map (fun o => dia_de (fst o)) obs in
      py_range (fold_right Z.min (dia_de t) ds)
               (fold_right Z.max (dia_de t) ds + 1)
  end.

(** The non-NaN values observed on day [d]. *)
Definition valores_do_dia (d : Z) (obs : Serie) : list Q :=
  validos (map snd (filter (fun o => dia_de (fst o) =? d) obs)).

(** [resample('D').sum()]: NaN cells are skipped and an empty bin sums
    to 0 (min_count = 0). *)
Definition resample_sum (obs : Serie) : Serie :=
  map (fun d => (d, Some (Qsum (valores_do_dia d obs)))) (dias_cobertos obs).

(** The mean of the non-NaN values of a bin; NaN for none. *)
Definition media (vs : list Q) : float :=
  match vs with
  | [] => NaN
  | _ :: _ => Some (Qsum vs / inject_Z (Z.of_nat (length vs)))%Q
  end.

(** [resample('D').mean()]. *)
Definition resample_mean (obs : Serie) : Serie :=
  map (fun d => (d, media (valores_do_dia d obs))) (dias_cobertos obs).

End Pandas.

Import Pandas.

Declare Scope resultado_scope.
Delimit Scope resultado_scope with res.
Notation "x <- m ;; k" := (ligar m (fun x => k))
  (at level 61, m at next level, right associativity) : resultado_scope.

(** The library kernels the scripts rely on. *)
Class Biblioteca : Type := {
  (** [float(s)]: [None] when the text is not a number. *)
  str_to_float : string -> option float;
  (** [strptime] with a format: seconds since 1970-01-01, [None] when the
      text does not match. *)
  strptime : string -> string -> option Z;
  (** Pearson's coefficient of a list of complete pairs; NaN when it is
      undefined (fewer than two pairs, zero variance). *)
  pearson : list (Q * Q) -> float
}.

(** [Series.corr(other)] (Pearson, min_periods = 1) on a shared index. *)
Definition corr `{Biblioteca} (a b : list float) : float :=
  let ps := pares_validos a b in
  if (length ps <? 1)%nat then NaN else pearson ps.

(** [pd.to_numeric(cell, errors='coerce')]: text that is not a number
    becomes NaN. *)
Definition to_numeric_coerce `{Biblioteca} (s : string) : float :=
  match str_to_float s with
  | Some x => x
  | None => NaN
  end.

(** [Series.astype(float)] on a text column: raises on the first cell that
    is not a number. *)
Fixpoint astype_float `{Biblioteca} (col : list string) : resultado (list float) :=
  match col with
  | [] => Ok []
  | s :: r =>
      match str_to_float s with
      | Some x => (xs <- astype_float r ;; Ok (x :: xs))%res
      | None => Erro ValueError
      end
  end.

(** [pd.to_datetime(col, format=fmt)] with the default errors='raise' on
    a column of texts none of which is a missing-value word: one cell that
    does not match raises for the whole column.  [Bruto.to_datetime]
    below reads null cells and missing-value words too. *)
Fixpoint to_datetime `{Biblioteca} (fmt : string) (col : list string)
  : resultado (list Z) :=
  match col with
  | [] => Ok []
  | s :: r =>
      match strptime fmt s with
      | Some t => (ts <- to_datetime fmt r ;; Ok (t :: ts))%res
      | None => Erro ValueError
      end
  end.

(** A row of the consolidated table, written by
    [1_processamento_dados.py] and read back by [app.py]. *)
Record Linha : Type := mkLinha {
  Data : Z;
  Nivel_m : float;
  Precipitacao_mm : float
}.

(* ================================================================== *)
(** * An executable instance of the library kernels *)
(* ================================================================== *)

Module Exemplo.

Definition digito (c : ascii) : option Z :=
  let n := Z.of_nat (nat_of_ascii c) in
  if (48 <=? n) && (n <=? 57) then Some (n - 48) else None.

(** Reads at most [max] leading digits: value, number of digits, rest. *)
Fixpoint ler_digitos (max : nat) (acc : Z) (n : nat) (s : string)
  : Z * nat * string :=
  match max, s with
  | S m, String c r =>
      match digito c with
      | Some d => ler_digitos m (acc * 10 + d) (S n) r
      | None => (acc, n, s)
      end
  | _, _ => (acc, n, s)
  end.

(** Plain decimal notation: optional sign, digits, optional fraction. *)
Definition decimal (s : string) : option float :=
  let '(neg, s1) :=
    match s with
    | String "-" r => (true, r)
    | String "+" r => (false, r)
    | _ => (false, s)
    end in
  let '(i, ni, s2) := ler_digitos (String.length s1) 0 0%nat s1 in
  let '(f, nf, s3) :=
    match s2 with
    | String "." r => ler_digitos (String.length r) 0 0%nat r
    | _ => (0, 0%nat, s2)
    end in
  match s3 with
  | EmptyString =>
      if (ni + nf =? 0)%nat then None
      else
        let den := 10 ^ Z.of_nat nf in
        let q := Qmake (i * den + f) (Z.to_pos den) in
        Some (Some (if neg then Qopp q else q))
  | _ => None
  end.

Record Campos : Type := mkCampos {
  c_ano : Z; c_mes : Z; c_dia : Z; c_hora : Z; c_min : Z; c_seg : Z
}.

Definition por_campo (d : ascii) (v : Z) (c : Campos) : option Campos :=
  if Ascii.eqb d "Y" then Some (mkCampos v (c_mes c) (c_dia c) (c_hora c) (c_min c) (c_seg c))
  else if Ascii.eqb d "m" then Some (mkCampos (c_ano c) v (c_dia c) (c_hora c) (c_min c) (c_seg c))
  else if Ascii.eqb d "d" then Some (mkCampos (c_ano c) (c_mes c) v (c_hora c) (c_min c) (c_seg c))
  else if Ascii.eqb d "H" then Some (mkCampos (c_ano c) (c_mes c) (c_dia c) v (c_min c) (c_seg c))
  else if Ascii.eqb d "M" then Some (mkCampos (c_ano c) (c_mes c) (c_dia c) (c_hora c) v (c_seg c))
  else if Ascii.eqb d "S" then Some (mkCampos (c_ano c) (c_mes c) (c_dia c) (c_hora c) (c_min c) v)
  else None.

(** Matches the text against a format made of the directives
    %Y %m %d %H %M %S and literal characters. *)
Fixpoint casar (fmt s : string) (c : Campos) : option Campos :=
  match fmt with
  | EmptyString => match s with EmptyString => Some c | _ => None end
  | String "%" (String d fmt') =>
      let w := if Ascii.eqb d "Y" then 4%nat else 2%nat in
      let '(v, n, r) := ler_digitos w 0 0%nat s in
      if (n =? 0)%nat then None
      else match por_campo d v c with
           | Some c' => casar fmt' r c'
           | None => None
           end
  | String ch fmt' =>
      match s with
      | String ch' s' => if Ascii.eqb ch ch' then casar fmt' s' c else None
      | EmptyString => None
      end
  end.

Definition bissexto (y : Z) : bool :=
  ((y mod 4 =? 0) && negb (y mod 100 =? 0)) || (y mod 400 =? 0).

Definition dias_no_mes (y m : Z) : Z :=
  if m =? 2 then (if bissexto y then 29 else 28)
  else if (m =? 4) || (m =? 6) || (m =? 9) || (m =? 11) then 30
  else 31.

(** Days from 1970-01-01 to the civil date y-m-d. *)
Definition dias_desde_1970 (y m d : Z) : Z :=
  let y' := if m <=? 2 then y - 1 else y in
  let era := y' / 400 in
  let yoe := y' - era * 400 in
  let mp := if 2 <? m then m - 3 else m + 9 in
  let doy := (153 * mp + 2) / 5 + d - 1 in
  let doe := yoe * 365 + yoe / 4 - yoe / 100 + doy in
  era * 146097 + doe - 719468.

Definition strptime_ex (fmt s : string) : option Z :=
  match casar fmt s (mkCampos 1900 1 1 0 0 0) with
  | Some c =>
      if (1 <=? c_mes c) && (c_mes c <=? 12) && (1 <=? c_dia c)
         && (c_dia c <=? dias_no_mes (c_ano c) (c_mes c))
         && (c_hora c <? 24) && (c_min c <? 60) && (c_seg c <? 60)
      then Some (dias_desde_1970 (c_ano c) (c_mes c) (c_dia c) * 86400
                 + c_hora c * 3600 + c_min c * 60 + c_seg c)
      else None
  | None => None
  end.

Definition sinal_quadrado (c : Q) : Q :=
  if Qle_bool 0 c then (c * c)%Q else (- (c * c))%Q.

(** A rational stand-in for Pearson's r on complete pairs: sign(r) * r^2,
    which orders coefficients as r does and is undefined exactly when r
    is (fewer than two pairs, or a constant column). *)
Definition pearson_ex (ps : list (Q * Q)) : float :=
  let n := inject_Z (Z.of_nat (length ps)) in
  let sx := Qsum (map fst ps) in
  let sy := Qsum (map snd ps) in
  let sxx := Qsum (map (fun p => fst p * fst p)%Q ps) in
  let syy := Qsum (map (fun p => snd p * snd p)%Q ps) in
  let sxy := Qsum (map (fun p => fst p * snd p)%Q ps) in
  let cov := (n * sxy - sx * sy)%Q in
  let vx := (n * sxx - sx * sx)%Q in
  let vy := (n * syy - sy * sy)%Q in
  if (length ps <? 2)%nat then NaN
  else if Qeq_bool vx 0 || Qeq_bool vy 0 then NaN
  else Some (Qred (sinal_quadrado cov / (vx * vy))%Q).

End Exemplo.

#[export] Instance biblioteca_exemplo : Biblioteca := {
  str_to_float := Exemplo.decimal;
  strptime := Exemplo.strptime_ex;
  pearson := Exemplo.pearson_ex
}.

(* ================================================================== *)
(** * app.py *)
(* ================================================================== *)

Module App.

Definition DataFrame : Type := list Linha.

(** [df['Precipitacao_mm'].shift(1).rolling(window=lag).sum()]. *)
Definition chuva_acumulada (df : DataFrame) (lag : Z) : list float :=
  rolling_sum (Z.to_nat lag) (shift 1 (map Precipitacao_mm df)).

(** One iteration of the [for lag in range(1, max_lag + 1)] loop. *)
Definition passo `{Biblioteca} (df : DataFrame) (correlacoes : dict) (lag : Z) : dict :=
  let c := corr (map Nivel_m df) (chuva_acumulada df lag) in
  if notna c then dict_set correlacoes lag c else correlacoes.

(** The dict [correlacoes] when the loop ends. *)
Definition laco `{Biblioteca} (df : DataFrame) (max_lag : Z) : dict :=
  fold_left (passo df) (py_range 1 (max_lag + 1)) [].

(** The returned triple; [None] stands for [(None, None, None)]. *)
Record Resultado : Type := mkResultado {
  melhor_lag : Z;
  melhor_corr : float;
  correlacoes : dict
}.

Definition calcular_correlacao_com_lag `{Biblioteca}
    (df : DataFrame) (max_lag : Z) : option Resultado :=
  let correlacoes := laco df max_lag in
  match correlacoes with
  | [] => None
  | _ :: _ =>
      match py_max (dict_item correlacoes) (dict_keys correlacoes) with
      | Some melhor_lag =>
          Some (mkResultado melhor_lag (dict_item correlacoes melhor_lag)
                            correlacoes)
      | None => None
      end
  end.

End App.


(* ================================================================== *)
(** * 1_processamento_dados.py *)
(* ================================================================== *)

Module Processamento.

(** A raw river row: the columns renamed [Timestamp] and [Medicao_str],
    both holding a present text (null cells and a measurement column
    read as numbers are the matter of [Bruto.TabelaRio]). *)
Definition LinhaRio : Type := (string * string)%type.

(** [.str.replace(' m', '').str.replace(',', '.')]. *)
Definition limpar_medicao (s : string) : string :=
  str_replace "," "." (str_replace " m" "" s).

(** The column [Nivel_m] after [pd.to_numeric(..., errors='coerce')]. *)
Definition nivel_de `{Biblioteca} (r : LinhaRio) : float :=
  to_numeric_coerce (limpar_medicao (snd r)).

(** [df_rio] once indexed by the parsed [Timestamp]. *)
Definition df_rio `{Biblioteca} (rows : list LinhaRio) : resultado Serie :=
  (ts <- to_datetime "%d/%m/%Y %H:%M" (map fst rows) ;;
   Ok (combine ts (map nivel_de rows)))%res.

(** [df_rio['Nivel_m'].resample('D').mean()] followed by [dropna]. *)
Definition df_rio_diario `{Biblioteca} (rows : list LinhaRio) : resultado Serie :=
  (obs <- df_rio rows ;; Ok (dropna (resample_mean obs)))%res.

(** A raw rainfall row: the text [Data + ' ' + Hora] handed to
    [pd.to_datetime] (after the hour code was normalised) and the text of
    the precipitation column, both present (null cells and a
    precipitation column read as numbers, on which [.str] raises an
    AttributeError, are the matter of [Bruto.TabelaClima]). *)
Definition LinhaClima : Type := (string * string)%type.

(** [df_clima] once indexed, on such rows: the timestamps are parsed
    first, then [.str.replace(',', '.').astype(float)] runs. *)
Definition df_clima `{Biblioteca} (rows : list LinhaClima) : resultado Serie :=
  (ts <- to_datetime "%Y/%m/%d %H:%M" (map fst rows) ;;
   vs <- astype_float (map (fun r => str_replace "," "." (snd r)) rows) ;;
   Ok (combine ts vs))%res.

(** [df_clima['Precipitacao_mm'].resample('D').sum()]. *)
Definition df_clima_diario `{Biblioteca} (rows : list LinhaClima) : resultado Serie :=
  (obs <- df_clima rows ;; Ok (resample_sum obs))%res.

(** [esq.join(dir)]: a left join on the index; a left row without a match
    keeps NaN in the right column. *)
Definition join (esq dir : Serie) : list Linha :=
  flat_map
    (fun l =>
       match filter (fun r => fst r =? fst l) dir with
       | [] => [mkLinha (fst l) (snd l) NaN]
       | ms => map (fun r => mkLinha (fst l) (snd l) (snd r)) ms
       end)
    esq.

(** [df_final['Precipitacao_mm'].fillna(0, inplace=True)]: the fill
    reaches the column of [df_final], as it does in pandas without
    copy-on-write. *)
Definition preencher_chuva (df : list Linha) : list Linha :=
  map (fun r => mkLinha (Data r) (Nivel_m r) (fillna 0 (Precipitacao_mm r))) df.

(** [df_final.dropna(inplace=True)]: rows with any NaN go. *)
Definition dropna_linhas (df : list Linha) : list Linha :=
  filter (fun r => notna (Nivel_m r) && notna (Precipitacao_mm r)) df.

(** The join stage, from the two daily series to the table written out. *)
Definition df_final (rio_diario clima_diario : Serie) : list Linha :=
  dropna_linhas (preencher_chuva (join rio_diario clima_diario)).

(** The whole script, from the raw rows to the consolidated table. *)
Definition consolidar `{Biblioteca}
    (rio : list LinhaRio) (clima : list LinhaClima) : resultado (list Linha) :=
  (r <- df_rio_diario rio ;;
   c <- df_clima_diario clima ;;
   Ok (df_final r c))%res.

End Processamento.

(* ================================================================== *)
(** * process_data.py *)
(* ================================================================== *)

Module ProcessData.

(** A rainfall record of the INMET API. *)
Record LinhaChuva : Type := mkLinhaChuva {
  DT_MEDICAO : string;
  HR_MEDICAO : string;
  CHUVA : string
}.

(** A level record of the ANA table. *)
Record LinhaNivel : Type := mkLinhaNivel {
  Data_txt : string;
  Hora : string;
  Nivel_1 : string
}.

(** A row of the table [processar_dados] returns (the calendar columns
    [ano] and [dia_do_ano], functions of [data], are left out). *)
Record LinhaFinal : Type := mkLinhaFinal {
  data : Z;
  precipitacao_mm : float;
  nivel_m : float
}.

(** [DT_MEDICAO + ' ' + HR_MEDICAO.zfill(4)[0:2] + ':00:00']. *)
Definition texto_data_chuva (r : LinhaChuva) : string :=
  String.append (DT_MEDICAO r)
    (String.append " "
       (String.append (String.substring 0 2 (zfill 4 (HR_MEDICAO r))) ":00:00")).

(** [pd.to_numeric(CHUVA, errors='coerce').fillna(0)]. *)
Definition chuva_de `{Biblioteca} (r : LinhaChuva) : float :=
  fillna 0 (to_numeric_coerce (CHUVA r)).

Definition df_chuva `{Biblioteca} (rows : list LinhaChuva) : resultado Serie :=
  (ts <- to_datetime "%Y-%m-%d %H:%M:%S" (map texto_data_chuva rows) ;;
   Ok (combine ts (map chuva_de rows)))%res.

(** [pd.to_numeric(Nivel_1, errors='coerce')]. *)
Definition nivel_cm_de `{Biblioteca} (r : LinhaNivel) : float :=
  to_numeric_coerce (Nivel_1 r).

Definition df_nivel `{Biblioteca} (rows : list LinhaNivel) : resultado Serie :=
  (ts <- to_datetime "%d/%m/%Y %H:%M:%S"
           (map (fun r => String.append (Data_txt r) (String.append " " (Hora r)))
                rows) ;;
   Ok (combine ts (map nivel_cm_de rows)))%res.

Fixpoint inserir (x : Z) (l : list Z) : list Z :=
  match l with
  | [] => [x]
  | y :: r =>
      if x <? y then x :: l
      else if x =? y then l
      else y :: inserir x r
  end.

(** The sorted union of the index values. *)
Definition chaves_ordenadas (l : list Z) : list Z := fold_right inserir [] l.

Definition celulas (k : Z) (s : Serie) : list float :=
  map snd (filter (fun o => fst o =? k) s).

(** [pd.merge(esq, dir, left_index=True, right_index=True, how='outer')]:
    the keys of both sides in sorted order, the rows of a shared key
    paired in every combination, NaN on the side that lacks the key. *)
Definition merge_outer (esq dir : Serie) : list (Z * float * float) :=
  flat_map
    (fun k =>
       match celulas k esq, celulas k dir with
       | [], ys => map (fun y => (k, NaN, y)) ys
       | xs, [] => map (fun x => (k, x, NaN)) xs
       | xs, ys => flat_map (fun x => map (fun y => (k, x, y)) ys) xs
       end)
    (chaves_ordenadas (map fst esq ++ map fst dir)).

(** The value a daily column holds at index [d] once aligned. *)
Definition valor_em (d : Z) (s : Serie) : float :=
  match filter (fun o => fst o =? d) s with
  | [] => NaN
  | o :: _ => snd o
  end.

(** [df_diario] before the forward fill: the daily sum of rainfall and,
    aligned on it, the daily mean of the level. *)
Definition df_diario (comb : list (Z * float * float)) : list (Z * float * float) :=
  let chuva := resample_sum (map (fun r => (fst (fst r), snd (fst r))) comb) in
  let nivel := resample_mean (map (fun r => (fst (fst r), snd r)) comb) in
  map (fun o => (fst o, snd o, valor_em (fst o) nivel)) chuva.

(** [ffill] of [nivel_cm], [dropna(subset=['nivel_cm'])], and the final
    columns with [nivel_m = nivel_cm / 100]. *)
Definition finalizar (diario : list (Z * float * float)) : list LinhaFinal :=
  let niveis := ffill (map snd diario) in
  let linhas := combine (map fst diario) niveis in
  flat_map
    (fun l =>
       match snd l with
       | Some n => [mkLinhaFinal (fst (fst l)) (snd (fst l)) (Some (n / 100)%Q)]
       | None => []
       end)
    linhas.

(** [processar_dados] on the concatenated rainfall and level records; an
    empty input skips its cleaning block and the column lookup that
    follows raises. *)
Definition processar_dados `{Biblioteca}
    (chuva : list LinhaChuva) (nivel : list LinhaNivel)
  : resultado (list LinhaFinal) :=
  (c <- df_chuva chuva ;;
   n <- df_nivel nivel ;;
   match chuva, nivel with
   | [], _ => Erro KeyError
   | _, [] => Erro KeyError
   | _, _ => Ok (finalizar (df_diario (merge_outer c n)))
   end)%res.

End ProcessData.

(* ================================================================== *)
(** * app.py: the correlation section that calls the analyzer *)
(* ================================================================== *)

Module Painel.

(** [calcular_correlacao_com_lag(df_corr.copy())]: the bound is left to
    its default, [max_lag=15]. *)
Definition analise `{Biblioteca} (df_corr : App.DataFrame) : option App.Resultado :=
  App.calcular_correlacao_com_lag df_corr 15.

(** [if melhor_lag:] on the first component of the returned triple:
    [None] and the integer 0 are false, every other integer is true. *)
Definition exibe_resultado `{Biblioteca} (df_corr : App.DataFrame) : bool :=
  match analise df_corr with
  | Some r => negb (App.melhor_lag r =? 0)
  | None => false
  end.

(** The column [Chuva_Acumulada] of the scatter plot:
    [df_plot_corr['Precipitacao_mm'].shift(1).rolling(window=melhor_lag).sum()]. *)
Definition Chuva_Acumulada (df_corr : App.DataFrame) (melhor_lag : Z) : list float :=
  rolling_sum (Z.to_nat melhor_lag) (shift 1 (map Precipitacao_mm df_corr)).

End Painel.

(* ================================================================== *)
(** * 1_processamento_dados.py: the hour code of the rainfall files *)
(* ================================================================== *)

Module Horario.

(** What [\d] matches in the Latin-1 text of the rainfall files: the
    characters 0 to 9. *)
Definition e_digito (c : ascii) : bool :=
  let n := nat_of_ascii c in ((48 <=? n) && (n <=? 57))%nat.

(** The digits at the head of a text. *)
Fixpoint digitos_iniciais (s : string) : string :=
  match s with
  | EmptyString => EmptyString
  | String c r => if e_digito c then String c (digitos_iniciais r) else EmptyString
  end.

(** [.str.extract('(\d+)').iloc[:, 0]]: the leftmost maximal run of
    digits; [None] is the NaN of a text without any digit. *)
Fixpoint extrair_digitos (s : string) : option string :=
  match s with
  | EmptyString => None
  | String c r => if e_digito c then Some (digitos_iniciais s) else extrair_digitos r
  end.

(** [x[start:stop]] for non-negative bounds. *)
Definition fatia (start stop : nat) (x : string) : string :=
  String.substring start (stop - start) x.

(** [x[start:]]. *)
Definition resto (start : nat) (x : string) : string :=
  String.substring start (String.length x - start) x.

(** [.str.slice_replace(start, stop, repl)]: when the slice is empty the
    replacement is inserted at [start]. *)
Definition slice_replace (start stop : nat) (repl x : string) : string :=
  let local_stop := if String.eqb (fatia start stop x) "" then start else stop in
  String.append (fatia 0 start x) (String.append repl (resto local_stop x)).

(** [df_clima['Hora'].str.zfill(4).str.slice_replace(2, 0, ':')] after
    the extraction of the digits; NaN stays NaN. *)
Definition hora_formatada (hora : string) : option string :=
  match extrair_digitos hora with
  | Some d => Some (slice_replace 2 0 ":" (zfill 4 d))
  | None => None
  end.

(** [df_clima['Data'] + ' ' + df_clima['Hora']]: the text handed to
    [pd.to_datetime]; NaN when the hour is NaN. *)
Definition texto_timestamp (data hora : string) : option string :=
  match hora_formatada hora with
  | Some h => Some (String.append data (String.append " " h))
  | None => None
  end.

End Horario.

(* ================================================================== *)
(** * The raw tables as pandas hands them to the scripts *)
(* ================================================================== *)

(** The modules [Processamento] and [ProcessData] above take tables whose
    cells are all present texts in columns of dtype object.  This module
    reads the same lines of the two scripts on the tables in general: a
    cell may be null, a timestamp text may be one of the words pandas
    takes for a missing timestamp, and a value column may have been read
    as numbers.  It holds the three tables whose timestamps are read
    against an explicit format; the rainfall records of process_data.py,
    whose [pd.to_datetime] is given none, are read in [ProcessData]
    only.  What [resample] does with a row under the timestamp NaT is
    not modelled: the tables here stop at [set_index]. *)

Module Bruto.

(** A cell of a column of dtype object: a text, or null. *)
Definition celula : Type := option string.

(** The texts [pd.to_datetime] reads as a missing timestamp. *)
Definition palavras_nat : list string :=
  [ ""; "NaT"; "nat"; "NAT"; "nan"; "NaN"; "NAN" ]%string.

Definition texto_nat (s : string) : bool :=
  existsb (String.eqb s) palavras_nat.

(** One cell under [pd.to_datetime(col, format=fmt)] with the default
    errors='raise': a null cell and a missing-value word give NaT
    ([None]) without an error; any other text gives its timestamp, or
    raises when it does not match the format. *)
Definition to_datetime_celula `{Biblioteca} (fmt : string) (c : celula)
  : resultado (option Z) :=
  match c with
  | None => Ok None
  | Some s =>
      if texto_nat s then Ok None
      else match strptime fmt s with
           | Some t => Ok (Some t)
           | None => Erro ValueError
           end
  end.

Fixpoint to_datetime `{Biblioteca} (fmt : string) (col : list celula)
  : resultado (list (option Z)) :=
  match col with
  | [] => Ok []
  | c :: r =>
      match to_datetime_celula fmt c with
      | Ok t => (ts <- to_datetime fmt r ;; Ok (t :: ts))%res
      | Erro e => Erro e
      end
  end.

(** A column of values indexed by the parsed timestamps; [None] is NaT. *)
Definition Indexada : Type := list (option Z * float).

(** [a + ' ' + b] on two object columns: null as soon as one side is. *)
Definition juntar_textos (a b : celula) : celula :=
  match a, b with
  | Some x, Some y => Some (String.append x (String.append " " y))
  | _, _ => None
  end.

(** A cell of a value column that [pd.to_numeric] receives: a text, or a
    number already (NaN for a null). *)
Inductive valor : Type :=
  | Texto (s : string)
  | Numero (x : float).

(** [pd.to_numeric(cell, errors='coerce')]. *)
Definition to_numeric_coerce_valor `{Biblioteca} (v : valor) : float :=
  match v with
  | Texto s => to_numeric_coerce s
  | Numero x => x
  end.

(** The river table of 1_processamento_dados.py after [read_csv]: the
    column [Timestamp] holds texts and nulls; the column [Medicao_str]
    has dtype object, or was read as numbers. *)
Inductive TabelaRio : Type :=
  | RioObjeto (rows : list (celula * celula))
  | RioNumerico (rows : list (celula * float)).

(** [.str.replace(' m', '').str.replace(',', '.')] then
    [pd.to_numeric(..., errors='coerce')] on one cell: a null stays
    null and becomes NaN. *)
Definition nivel_de `{Biblioteca} (c : celula) : float :=
  match c with
  | Some s => to_numeric_coerce (Processamento.limpar_medicao s)
  | None => NaN
  end.

(** [df_rio] once indexed; the [.str] accessor of a numeric column
    raises before the timestamps are read. *)
Definition df_rio `{Biblioteca} (tab : TabelaRio) : resultado Indexada :=
  match tab with
  | RioNumerico _ => Erro AttributeError
  | RioObjeto rows =>
      (ts <- to_datetime "%d/%m/%Y %H:%M" (map fst rows) ;;
       Ok (combine ts (map (fun r => nivel_de (snd r)) rows)))%res
  end.

(** The rainfall table of 1_processamento_dados.py: the text
    [Data + ' ' + Hora] of each row (null when the date is null or the
    hour code had no digit) and the precipitation column, of dtype
    object or numeric. *)
Inductive TabelaClima : Type :=
  | ClimaObjeto (rows : list (celula * celula))
  | ClimaNumerico (rows : list (celula * float)).

Definition carimbos (tab : TabelaClima) : list celula :=
  match tab with
  | ClimaObjeto rows => map fst rows
  | ClimaNumerico rows => map fst rows
  end.

(** [Series.astype(float)] on an object column: a null is NaN, a text
    that is not a number raises. *)
Fixpoint astype_float `{Biblioteca} (col : list celula) : resultado (list float) :=
  match col with
  | [] => Ok []
  | None :: r => (xs <- astype_float r ;; Ok (NaN :: xs))%res
  | Some s :: r =>
      match str_to_float s with
      | Some x => (xs <- astype_float r ;; Ok (x :: xs))%res
      | None => Erro ValueError
      end
  end.

(** [df_clima] once indexed: the timestamps are parsed first, then
    [.str.replace(',', '.').astype(float)] runs on the precipitation. *)
Definition df_clima `{Biblioteca} (tab : TabelaClima) : resultado Indexada :=
  (ts <- to_datetime "%Y/%m/%d %H:%M" (carimbos tab) ;;
   match tab with
   | ClimaNumerico _ => Erro AttributeError
   | ClimaObjeto rows =>
       vs <- astype_float
               (map (fun r => option_map (str_replace "," ".") (snd r)) rows) ;;
       Ok (combine ts vs)
   end)%res.

(** A level record of process_data.py. *)
Record LinhaNivel : Type := mkLinhaNivel {
  Data_cel : celula;
  Hora_cel : celula;
  Nivel_1 : valor
}.

Definition texto_data_nivel (r : LinhaNivel) : celula :=
  juntar_textos (Data_cel r) (Hora_cel r).

Definition df_nivel `{Biblioteca} (rows : list LinhaNivel) : resultado Indexada :=
  (ts <- to_datetime "%d/%m/%Y %H:%M:%S" (map texto_data_nivel rows) ;;
   Ok (combine ts (map (fun r => to_numeric_coerce_valor (Nivel_1 r)) rows)))%res.

End Bruto.

(* ================================================================== *)
(** * Notions used to state the properties *)
(* ================================================================== *)

(** Strictly increasing lists of integers. *)
Inductive crescente : list Z -> Prop :=
  | crescente_nil : crescente []
  | crescente_cons x l :
      (forall y, In y l -> x < y) -> crescente l -> crescente (x :: l).

(** Order on float cells; NaN is related to nothing. *)
Definition fle (x y : float) : Prop :=
  match x, y with
  | Some a, Some b => (a <= b)%Q
  | _, _ => False
  end.

Definition flt (x y : float) : Prop :=
  match x, y with
  | Some a, Some b => (a < b)%Q
  | _, _ => False
  end.

(** The coefficient the loop of [calcular_correlacao_com_lag] computes
    for one lag. *)
Definition coef `{Biblioteca} (df : App.DataFrame) (lag : Z) : float :=
  corr (map Nivel_m df) (App.chuva_acumulada df lag).

(** The entry one lag contributes to [correlacoes]. *)
Definition entrada `{Biblioteca} (df : App.DataFrame) (lag : Z) : dict :=
  if notna (coef df lag) then [(lag, coef df lag)] else [].

(** The precipitation the table holds for calendar day [d]; NaN when the
    table has no row for that day. *)
Definition chuva_no_dia (df : App.DataFrame) (d : Z) : float :=
  match find (fun r => Data r =? d) df with
  | Some r => Precipitacao_mm r
  | None => NaN
  end.

(** The accumulated driver as the specification words it: the sum of the
    precipitation over the [k] calendar days strictly preceding day [t];
    undefined when one of these days has no value in the table. *)
Definition soma_dias_anteriores (df : App.DataFrame) (k t : Z) : float :=
  let cells := map (chuva_no_dia df) (py_range (t - k) t) in
  if forallb notna cells then Some (Qsum (validos cells)) else NaN.

(** A timestamp cell whose text is neither a missing-value word nor a
    text in the format [fmt]. *)
Definition malformado `{Biblioteca} (fmt : string) (c : Bruto.celula) : Prop :=
  exists s, c = Some s /\ Bruto.texto_nat s = false /\ strptime fmt s = None.

(** What the index holds for a timestamp cell after a parse that did not
    raise: NaT for a null cell or a missing-value word, the timestamp of
    the text otherwise. *)
Definition instante_de `{Biblioteca} (fmt : string) (c : Bruto.celula)
    (t : option Z) : Prop :=
  match c with
  | None => t = None
  | Some s =>
      if Bruto.texto_nat s then t = None
      else exists x, strptime fmt s = Some x /\ t = Some x
  end.

(** A parse that raises a ValueError exactly when one timestamp cell is
    malformed, returns a table exactly when none is, and then keeps one
    observation per row, in order, each under the timestamp of its
    cell. *)
Definition tudo_ou_nada `{Biblioteca} {R : Type} (fmt : string)
    (carimbo : R -> Bruto.celula)
    (parse : list R -> resultado Bruto.Indexada) : Prop :=
  forall rows,
    ((exists r, In r rows /\ malformado fmt (carimbo r)) <->
     parse rows = Erro ValueError) /\
    ((forall r, In r rows -> ~ malformado fmt (carimbo r)) <->
     exists obs, parse rows = Ok obs) /\
    (forall obs, parse rows = Ok obs ->
       Forall2 (fun r o => instante_de fmt (carimbo r) (fst o)) rows obs).

(** A text without the character [c]. *)
Fixpoint sem_caractere (c : ascii) (s : string) : bool :=
  match s with
  | EmptyString => true
  | String x r => negb (Ascii.eqb x c) && sem_caractere c r
  end.

(** A text without any digit. *)
Fixpoint sem_digitos (s : string) : bool :=
  match s with
  | EmptyString => true
  | String x r => negb (Horario.e_digito x) && sem_digitos r
  end.

(** A text that is empty or starts with something else than a digit. *)
Definition sem_digito_inicial (s : string) : bool :=
  match s with
  | EmptyString => true
  | String c _ => negb (Horario.e_digito c)
  end.

(* ================================================================== *)
(** * Concrete tables used in the examples *)
(* ================================================================== *)

Module Casos.

Open Scope string_scope.

(** Six consecutive days. *)
Definition df_exemplo : App.DataFrame :=
  [ mkLinha 1 (Some 1) (Some 0); mkLinha 2 (Some 1) (Some 5);
    mkLinha 3 (Some 2) (Some 0); mkLinha 4 (Some 4) (Some 10);
    mkLinha 5 (Some 3) (Some 0); mkLinha 6 (Some 6) (Some 0) ]%Q.

Definition resultado_exemplo : App.Resultado :=
  Eval vm_compute in
    match App.calcular_correlacao_com_lag df_exemplo 3 with
    | Some r => r
    | None => App.mkResultado 0 NaN []
    end.

(** A constant river level: no lag has a defined coefficient. *)
Definition df_constante : App.DataFrame :=
  [ mkLinha 1 (Some 2) (Some 0); mkLinha 2 (Some 2) (Some 5);
    mkLinha 3 (Some 2) (Some 1); mkLinha 4 (Some 2) (Some 10) ]%Q.

(** Days 1, 2 and 5: the river gauge has no reading on days 3 and 4. *)
Definition df_lacuna : App.DataFrame :=
  [ mkLinha 1 (Some 1) (Some 3); mkLinha 2 (Some 2) (Some 7);
    mkLinha 5 (Some 4) (Some 1) ]%Q.

(** River rows; the second measurement is not a number. *)
Definition rio_exemplo : list Processamento.LinhaRio :=
  [ ("30/04/2024 13:15", "1,25 m"); ("30/04/2024 13:30", "abc m");
    ("30/04/2024 13:45", "1,75 m"); ("02/05/2024 00:00", "3,00 m") ].

Definition obs_rio_exemplo : Serie :=
  Eval vm_compute in
    match Processamento.df_rio rio_exemplo with
    | Ok obs => obs
    | Erro _ => []
    end.

(** River rows; the second timestamp does not follow the format. *)
Definition rio_data_invalida : list Processamento.LinhaRio :=
  [ ("30/04/2024 13:15", "1,25 m"); ("30-04-2024 13:30", "1,30 m") ].

(** Rainfall rows on 2024-04-29 and 2024-05-01, none on 2024-04-30. *)
Definition clima_exemplo : list Processamento.LinhaClima :=
  [ ("2024/04/29 01:00", "1,2"); ("2024/04/29 02:00", "0,8");
    ("2024/05/01 00:00", "3,5") ].

Definition obs_clima_exemplo : Serie :=
  Eval vm_compute in
    match Processamento.df_clima clima_exemplo with
    | Ok obs => obs
    | Erro _ => []
    end.

(** Rainfall rows; the second value is not a number. *)
Definition clima_valor_invalido : list Processamento.LinhaClima :=
  [ ("2024/04/29 01:00", "1,2"); ("2024/04/29 02:00", "x") ].

(** An API rainfall record whose value is not a number. *)
Definition chuva_invalida : ProcessData.LinhaChuva :=
  ProcessData.mkLinhaChuva "2024-04-29" "0100" "x".

(** An API level record whose value is not a number. *)
Definition nivel_invalido : ProcessData.LinhaNivel :=
  ProcessData.mkLinhaNivel "30/04/2024" "10:00:00" "zz".

Definition nivel_data_invalida : list ProcessData.LinhaNivel :=
  [ ProcessData.mkLinhaNivel "30/04/2024" "10:00:00" "150";
    ProcessData.mkLinhaNivel "2024-04-30" "11:00:00" "160" ].

Definition nivel_exemplo : list ProcessData.LinhaNivel :=
  [ ProcessData.mkLinhaNivel "30/04/2024" "10:00:00" "150";
    nivel_invalido ].

Definition obs_nivel_exemplo : Serie :=
  Eval vm_compute in
    match ProcessData.df_nivel nivel_exemplo with
    | Ok obs => obs
    | Erro _ => []
    end.

Definition obs_chuva_invalida : Serie :=
  Eval vm_compute in
    match ProcessData.df_chuva [chuva_invalida] with
    | Ok obs => obs
    | Erro _ => []
    end.

(** Two daily series: the river has days 10 and 11, the rainfall only
    day 10. *)
Definition rio_diario_exemplo : Serie := [ (10, Some 1%Q); (11, Some 2%Q) ].
Definition clima_diario_exemplo : Serie := [ (10, Some 5%Q) ].


End Casos.

Module CasosExtra.

Open Scope string_scope.

(** [Casos.df_exemplo] with another rainfall on its fourth day. *)
Definition df_outra_chuva_hoje : App.DataFrame :=
  [ mkLinha 1 (Some 1) (Some 0); mkLinha 2 (Some 1) (Some 5);
    mkLinha 3 (Some 2) (Some 0); mkLinha 4 (Some 4) (Some 99);
    mkLinha 5 (Some 3) (Some 0); mkLinha 6 (Some 6) (Some 0) ]%Q.

(** [Casos.df_exemplo] with other dates. *)
Definition df_outras_datas : App.DataFrame :=
  [ mkLinha 10 (Some 1) (Some 0); mkLinha 20 (Some 1) (Some 5);
    mkLinha 30 (Some 2) (Some 0); mkLinha 40 (Some 4) (Some 10);
    mkLinha 50 (Some 3) (Some 0); mkLinha 60 (Some 6) (Some 0) ]%Q.

Definition resultado_max_lag_2 : App.Resultado :=
  Eval vm_compute in
    match App.calcular_correlacao_com_lag Casos.df_exemplo 2 with
    | Some r => r
    | None => App.mkResultado 0 NaN []
    end.

Definition rio_diario : Serie :=
  Eval vm_compute in
    match Processamento.df_rio_diario Casos.rio_exemplo with
    | Ok s => s
    | Erro _ => []
    end.

Definition clima_diario : Serie :=
  Eval vm_compute in
    match Processamento.df_clima_diario Casos.clima_exemplo with
    | Ok s => s
    | Erro _ => []
    end.

(** API rainfall records on three days. *)
Definition chuva_api : list ProcessData.LinhaChuva :=
  [ ProcessData.mkLinhaChuva "2024-04-30" "0100" "1.5";
    Casos.chuva_invalida;
    ProcessData.mkLinhaChuva "2024-05-02" "2300" "2" ].

Definition tabela_api : list ProcessData.LinhaFinal :=
  Eval vm_compute in
    match ProcessData.processar_dados chuva_api Casos.nivel_exemplo with
    | Ok t => t
    | Erro _ => []
    end.

(** Two small indexed columns for the merge. *)
Definition serie_chuva : Serie := [ (0, Some 1%Q); (3600, Some 2%Q) ].
Definition serie_nivel : Serie := [ (3600, Some 150%Q); (7200, Some 160%Q) ].

End CasosExtra.

Module CasosBruto.

Open Scope string_scope.

(** River rows: a null timestamp, the word "NaT" with a null
    measurement, and a measurement that is not a number. *)
Definition rio : list (Bruto.celula * Bruto.celula) :=
  [ (Some "30/04/2024 13:15", Some "1,25 m"); (None, Some "1,30 m");
    (Some "NaT", None); (Some "30/04/2024 13:45", Some "abc m") ].

Definition obs_rio : Bruto.Indexada :=
  Eval vm_compute in
    match Bruto.df_rio (Bruto.RioObjeto rio) with
    | Ok obs => obs
    | Erro _ => []
    end.

(** River rows; the second timestamp is not in the format. *)
Definition rio_malformado : list (Bruto.celula * Bruto.celula) :=
  [ (Some "30/04/2024 13:15", Some "1,25 m");
    (Some "30-04-2024 13:30", Some "1,30 m") ].

(** Rainfall rows with a null timestamp and a null value. *)
Definition clima : list (Bruto.celula * Bruto.celula) :=
  [ (Some "2024/04/29 01:00", Some "1,2"); (None, Some "0,8");
    (Some "2024/05/01 00:00", None) ].

Definition obs_clima : Bruto.Indexada :=
  Eval vm_compute in
    match Bruto.df_clima (Bruto.ClimaObjeto clima) with
    | Ok obs => obs
    | Erro _ => []
    end.

(** Rainfall rows read as numbers; the second timestamp is not in the
    format. *)
Definition clima_numerico_malformado : list (Bruto.celula * float) :=
  [ (Some "2024/04/29 01:00", Some 1%Q); (Some "29/04/2024 02:00", Some 2%Q) ].

(** Rainfall rows read as numbers, every timestamp in the format. *)
Definition clima_numerico : list (Bruto.celula * float) :=
  [ (Some "2024/04/29 01:00", Some 1%Q); (None, NaN) ].

(** Level records; the second date is not in the format. *)
Definition nivel_malformado : list Bruto.LinhaNivel :=
  [ Bruto.mkLinhaNivel (Some "30/04/2024") (Some "10:00:00") (Bruto.Numero (Some 150%Q));
    Bruto.mkLinhaNivel (Some "2024-04-30") (Some "11:00:00") (Bruto.Texto "160") ].

End CasosBruto.

(* ================================================================== *)
(** * Properties *)
(* ================================================================== *)

(** ** Ranges *)

Lemma py_range_In (lo hi k : Z) : In k (py_range lo hi) <-> lo <= k < hi.
Proof.
  unfold py_range. rewrite in_map_iff. split.
  - intros [i [<- Hi]]. apply in_seq in Hi. lia.
  - intros Hk. exists (Z.to_nat (k - lo)). split; [lia|].
    apply in_seq. lia.
Qed.

Lemma py_range_cons (lo hi : Z) :
  lo < hi -> py_range lo hi = lo :: py_range (lo + 1) hi.
Proof.
  intros Hlt. unfold py_range.
  replace (Z.to_nat (hi - lo)) with (S (Z.to_nat (hi - (lo + 1)))) by lia.
  cbn [seq map]. f_equal; [lia|].
  rewrite <- seq_shift, map_map. apply map_ext. intros i. lia.
Qed.

Lemma py_range_nil (lo hi : Z) : hi <= lo -> py_range lo hi = [].
Proof.
  intros Hle. unfold py_range.
  replace (Z.to_nat (hi - lo)) with 0%nat by lia. reflexivity.
Qed.

Lemma py_range_crescente (lo hi : Z) : crescente (py_range lo hi).
Proof.
  remember (Z.to_nat (hi - lo)) as n eqn:Hn.
  revert lo Hn. induction n as [|n IH]; intros lo Hn.
  - rewrite py_range_nil by lia. constructor.
  - rewrite py_range_cons by lia. constructor.
    + intros y Hy. apply py_range_In in Hy. lia.
    + apply IH. lia.
Qed.

(** ** The dict built by the loop *)

Section Analisador.

Context `{Biblioteca}.
Variable df : App.DataFrame.


Lemma dict_set_novo (d : dict) (k : Z) (v : float) :
  ~ In k (dict_keys d) -> dict_set d k v = d ++ [(k, v)].
Proof.
  induction d as [|[k' v'] d IH]; intros Hk; cbn.
  - reflexivity.
  - destruct (Z.eqb_spec k' k) as [->|Hne].
    + exfalso. apply Hk. now left.
    + rewrite IH; [reflexivity|]. intros Hin. apply Hk. now right.
Qed.

Lemma entrada_chaves (lag k : Z) : In k (dict_keys (entrada df lag)) -> k = lag.
Proof.
  unfold entrada. destruct (notna (coef df lag)); cbn; intuition.
Qed.

Lemma laco_desde (ls : list Z) (acc : dict) :
  crescente ls ->
  (forall k l, In k (dict_keys acc) -> In l ls -> k < l) ->
  fold_left (App.passo df) ls acc = acc ++ flat_map (entrada df) ls.
Proof.
  revert acc. induction ls as [|l ls IH]; intros acc Hs Hacc; cbn.
  - now rewrite app_nil_r.
  - inversion Hs as [|x l' Hlt Hs']; subst.
    assert (Hpasso : App.passo df acc l = acc ++ entrada df l).
    { unfold App.passo, entrada. fold (coef df l).
      destruct (notna (coef df l)).
      - apply dict_set_novo. intros Hin.
        specialize (Hacc l l Hin (or_introl eq_refl)). lia.
      - now rewrite app_nil_r. }
    rewrite Hpasso, IH, <- app_assoc; [reflexivity|assumption|].
    intros k l' Hk Hl'. unfold dict_keys in Hk.
    rewrite map_app in Hk. apply in_app_or in Hk as [Hk|Hk].
    + apply Hacc; [assumption|now right].
    + apply entrada_chaves in Hk. subst. now apply Hlt.
Qed.

(** The loop keeps, in increasing order of lag, the lags whose
    coefficient is not NaN. *)
Lemma laco_flat_map (max_lag : Z) :
  App.laco df max_lag = flat_map (entrada df) (py_range 1 (max_lag + 1)).
Proof.
  unfold App.laco. rewrite laco_desde; [reflexivity| |].
  - apply py_range_crescente.
  - intros k l [].
Qed.

Lemma laco_In (max_lag k : Z) (v : float) :
  In (k, v) (App.laco df max_lag) <->
  1 <= k <= max_lag /\ v = coef df k /\ notna v = true.
Proof.
  rewrite laco_flat_map, in_flat_map. split.
  - intros [l [Hl Hin]]. apply py_range_In in Hl.
    unfold entrada in Hin. destruct (notna (coef df l)) eqn:Hn; [|contradiction].
    destruct Hin as [Heq|[]]. inversion Heq; subst. repeat split; try lia; assumption.
  - intros [Hk [-> Hn]]. exists k. split.
    + apply py_range_In. lia.
    + unfold entrada. rewrite Hn. now left.
Qed.

Lemma laco_crescente (max_lag : Z) :
  crescente (dict_keys (App.laco df max_lag)).
Proof.
  rewrite laco_flat_map.
  generalize (py_range_crescente 1 (max_lag + 1)).
  induction (py_range 1 (max_lag + 1)) as [|l ls IH]; intros Hs; cbn.
  - constructor.
  - inversion Hs as [|x l' Hlt Hs']; subst.
    unfold dict_keys. rewrite map_app. fold (dict_keys (flat_map (entrada df) ls)).
    unfold entrada at 1. destruct (notna (coef df l)); cbn; [|now apply IH].
    constructor; [|now apply IH].
    intros y Hy. unfold dict_keys in Hy. apply in_map_iff in Hy as [[k v] [<- Hy]].
    apply in_flat_map in Hy as [l' [Hl' Hy]].
    assert (k = l') by (apply entrada_chaves with (lag := l');
                        unfold dict_keys; apply in_map_iff; now exists (k, v)).
    subst. now apply Hlt.
Qed.

End Analisador.

(** ** The builtin [max] with a key *)

Lemma float_gt_true (x y : float) : float_gt x y = true -> flt y x.
Proof.
  destruct x as [a|], y as [b|]; cbn; try discriminate.
  intros Hgt. apply negb_true_iff in Hgt.
  destruct (Qlt_le_dec b a) as [Hlt|Hle]; [assumption|].
  apply Qle_bool_iff in Hle. congruence.
Qed.

Lemma float_gt_false (x y : float) :
  notna x = true -> notna y = true -> float_gt x y = false -> fle x y.
Proof.
  destruct x as [a|], y as [b|]; cbn; try discriminate.
  intros _ _ Hgt. apply negb_false_iff in Hgt. now apply Qle_bool_iff.
Qed.

Lemma flt_fle_trans (x y z : float) : fle x y -> flt y z -> flt x z.
Proof.
  destruct x, y, z; cbn; try tauto. apply Qle_lt_trans.
Qed.

Lemma flt_trans (x y z : float) : flt x y -> flt y z -> flt x z.
Proof.
  destruct x, y, z; cbn; try tauto. apply Qlt_trans.
Qed.

(** [max] returns the first element, in iteration order, whose key is
    the greatest: what comes before it is strictly smaller, what comes
    after is not greater. *)
Lemma max_desde_primeiro {A : Type} (f : A -> float) (l pre mid : list A) (b : A) :
  (forall x, In x (pre ++ b :: mid ++ l) -> notna (f x) = true) ->
  (forall x, In x pre -> flt (f x) (f b)) ->
  (forall x, In x mid -> fle (f x) (f b)) ->
  exists pre' post,
    pre ++ b :: mid ++ l = pre' ++ max_desde f b l :: post /\
    (forall x, In x pre' -> flt (f x) (f (max_desde f b l))) /\
    (forall x, In x post -> fle (f x) (f (max_desde f b l))).
Proof.
  revert pre mid b. induction l as [|x l IH]; intros pre mid b Hn Hpre Hmid.
  - exists pre, mid. rewrite app_nil_r. cbn. auto.
  - cbn [max_desde].
    assert (Hnx : notna (f x) = true).
    { apply Hn. apply in_or_app. right. right. apply in_or_app. right. now left. }
    assert (Hnb : notna (f b) = true).
    { apply Hn. apply in_or_app. right. now left. }
    destruct (float_gt (f x) (f b)) eqn:Hgt.
    + apply float_gt_true in Hgt.
      destruct (IH (pre ++ b :: mid) [] x) as [pre' [post [Heq Hspec]]].
      * intros y Hy. apply Hn. cbn in Hy. rewrite <- app_assoc in Hy. exact Hy.
      * intros y Hy. apply in_app_or in Hy as [Hy|[<-|Hy]].
        -- eapply flt_trans; [now apply Hpre|assumption].
        -- assumption.
        -- eapply flt_fle_trans; [now apply Hmid|assumption].
      * intros y [].
      * exists pre', post. split; [|assumption].
        rewrite <- Heq. cbn. now rewrite <- app_assoc.
    + apply float_gt_false in Hgt; try assumption.
      destruct (IH pre (mid ++ [x]) b) as [pre' [post [Heq Hspec]]].
      * intros y Hy. apply Hn. rewrite <- app_assoc in Hy. exact Hy.
      * assumption.
      * intros y Hy. apply in_app_or in Hy as [Hy|[<-|[]]]; [now apply Hmid|assumption].
      * exists pre', post. split; [|assumption].
        rewrite <- Heq. now rewrite <- app_assoc.
Qed.

Lemma crescente_app_inv (a b : list Z) (x : Z) :
  crescente (a ++ x :: b) ->
  (forall y, In y a -> y < x) /\ (forall y, In y b -> x < y).
Proof.
  induction a as [|z a IH]; cbn; intros Hs.
  - inversion Hs; subst. split; [intros y []|assumption].
  - inversion Hs as [|z' l' Hlt Hs']; subst.
    destruct (IH Hs') as [Ha Hb]. split; [|assumption].
    intros y [<-|Hy]; [|now apply Ha].
    apply Hlt. apply in_or_app. right. now left.
Qed.

Lemma crescente_NoDup (l : list Z) : crescente l -> NoDup l.
Proof.
  induction 1 as [|x l Hlt Hs IH]; constructor; [|assumption].
  intros Hin. specialize (Hlt x Hin). lia.
Qed.

Lemma dict_get_In (d : dict) (k : Z) (v : float) :
  NoDup (dict_keys d) -> In (k, v) d -> dict_get d k = Some v.
Proof.
  induction d as [|[k' v'] d IH]; cbn; intros Hnd Hin; [contradiction|].
  inversion Hnd as [|? ? Hnotin Hnd']; subst.
  destruct Hin as [Heq|Hin].
  - inversion Heq; subst. now rewrite Z.eqb_refl.
  - destruct (Z.eqb_spec k' k) as [->|Hne]; [|now apply IH].
    exfalso. apply Hnotin. unfold dict_keys. apply in_map_iff. now exists (k, v).
Qed.

Lemma dict_item_In (d : dict) (k : Z) (v : float) :
  NoDup (dict_keys d) -> In (k, v) d -> dict_item d k = v.
Proof.
  intros Hnd Hin. unfold dict_item. now rewrite (dict_get_In d k v).
Qed.

(** ** The analyzer of app.py *)

Section Resultado.

Context `{Biblioteca}.

Lemma calcular_Some (df : App.DataFrame) (max_lag : Z) (r : App.Resultado) :
  App.calcular_correlacao_com_lag df max_lag = Some r ->
  App.correlacoes r = App.laco df max_lag /\
  App.melhor_corr r = dict_item (App.laco df max_lag) (App.melhor_lag r) /\
  exists k0 ks,
    dict_keys (App.laco df max_lag) = k0 :: ks /\
    App.melhor_lag r = max_desde (dict_item (App.laco df max_lag)) k0 ks.
Proof.
  unfold App.calcular_correlacao_com_lag.
  destruct (App.laco df max_lag) as [|[k0 v0] d] eqn:Hd; [discriminate|].
  cbn [dict_keys map fst py_max]. intros Heq. inversion Heq; subst; cbn.
  repeat split; try reflexivity. now exists k0, (map fst d).
Qed.

Lemma calcular_None (df : App.DataFrame) (max_lag : Z) :
  App.calcular_correlacao_com_lag df max_lag = None <-> App.laco df max_lag = [].
Proof.
  unfold App.calcular_correlacao_com_lag.
  destruct (App.laco df max_lag) as [|[k0 v0] d]; cbn; split;
    congruence.
Qed.

Lemma chave_tem_valor (d : dict) (k : Z) :
  In k (dict_keys d) -> exists v, In (k, v) d.
Proof.
  unfold dict_keys. intros Hin. apply in_map_iff in Hin as [[k' v] [Hk Hin]].
  cbn in Hk. subst. now exists v.
Qed.

(** C2. Whenever the analyzer returns a result, the best lag carries the
    greatest coefficient of the mapping, and among the lags that reach
    this greatest coefficient it is the smallest one. *)
Theorem melhor_lag_maximo_e_menor
    (df : App.DataFrame) (max_lag : Z) (r : App.Resultado) :
  App.calcular_correlacao_com_lag df max_lag = Some r ->
  exists c,
    App.melhor_corr r = Some c /\
    In (App.melhor_lag r, Some c) (App.correlacoes r) /\
    forall k v, In (k, v) (App.correlacoes r) ->
      exists q, v = Some q /\ (q <= c)%Q /\
                ((q == c)%Q -> App.melhor_lag r <= k).
Proof.
  intros Hr. apply calcular_Some in Hr as [Hd [Hc [k0 [ks [Hks Hm]]]]].
  rewrite Hd, Hc. clear Hd Hc.
  set (d := App.laco df max_lag) in *.
  assert (Hcres : crescente (dict_keys d)) by apply laco_crescente.
  assert (Hnd : NoDup (dict_keys d)) by now apply crescente_NoDup.
  assert (Hval : forall k v, In (k, v) d -> dict_item d k = v /\ notna v = true).
  { intros k v Hin. split; [now apply dict_item_In|].
    now apply (laco_In df max_lag k v). }
  destruct (max_desde_primeiro (dict_item d) ks [] [] k0)
    as [pre [post [Hsplit [Hpre Hpost]]]].
  - intros k Hk. change (In k (k0 :: ks)) in Hk. rewrite <- Hks in Hk.
    apply chave_tem_valor in Hk as [v Hin].
    destruct (Hval k v Hin) as [-> Hn]. exact Hn.
  - intros x [].
  - intros x [].
  - cbn [app] in Hsplit. rewrite <- Hks, <- Hm in Hsplit.
    rewrite <- Hm in Hpre, Hpost.
    set (m := App.melhor_lag r) in *.
    assert (Hmin : In m (dict_keys d)).
    { rewrite Hsplit. apply in_or_app. right. now left. }
    apply chave_tem_valor in Hmin as [vm Hmin].
    destruct (Hval m vm Hmin) as [Hvm Hnm].
    destruct vm as [c|]; [|discriminate].
    exists c. split; [assumption|]. split; [assumption|].
    intros k v Hin. destruct (Hval k v Hin) as [Hv Hn].
    destruct v as [q|]; [|discriminate].
    exists q. split; [reflexivity|].
    rewrite Hsplit in Hcres. apply crescente_app_inv in Hcres as [Hlo Hhi].
    assert (Hk : In k (dict_keys d))
      by (unfold dict_keys; apply in_map_iff; now exists (k, Some q)).
    rewrite Hsplit in Hk. apply in_app_or in Hk as [Hk|[Hk|Hk]].
    + specialize (Hpre k Hk). rewrite Hv, Hvm in Hpre. cbn in Hpre. split.
      * now apply Qlt_le_weak.
      * intros Heq. rewrite Heq in Hpre. now apply Qlt_irrefl in Hpre.
    + subst k. assert (Hqc : Some q = Some c) by congruence.
      inversion Hqc; subst. split; [apply Qle_refl|]. intros _. lia.
    + specialize (Hpost k Hk). rewrite Hv, Hvm in Hpost. cbn in Hpost.
      split; [assumption|]. intros _. specialize (Hhi k Hk). lia.
Qed.

(** C3. An entry of the result mapping is the coefficient of its lag and
    is not NaN; and when every lag of [1, max_lag] has a NaN coefficient
    the analyzer returns the explicit no-result value. *)
Theorem apenas_coeficientes_definidos (df : App.DataFrame) (max_lag : Z) :
  (forall r k v,
      App.calcular_correlacao_com_lag df max_lag = Some r ->
      In (k, v) (App.correlacoes r) ->
      v = corr (map Nivel_m df) (App.chuva_acumulada df k) /\ notna v = true) /\
  ((forall k, 1 <= k <= max_lag ->
      notna (corr (map Nivel_m df) (App.chuva_acumulada df k)) = false) ->
   App.calcular_correlacao_com_lag df max_lag = None).
Proof.
  split.
  - intros r k v Hr Hin. apply calcular_Some in Hr as [Hd _].
    rewrite Hd in Hin. apply laco_In in Hin as [_ [Hv Hn]]. now split.
  - intros Hnan. apply calcular_None.
    destruct (App.laco df max_lag) as [|[k v] d] eqn:Hd; [reflexivity|].
    assert (Hin : In (k, v) (App.laco df max_lag)) by (rewrite Hd; now left).
    apply laco_In in Hin as [Hk [Hv Hn]].
    specialize (Hnan k Hk). unfold coef in Hv. rewrite <- Hv in Hnan. congruence.
Qed.

(** C9. The result mapping has no entry for a lag below 1 or above
    [max_lag]. *)
Theorem lags_entre_1_e_max_lag
    (df : App.DataFrame) (max_lag : Z) (r : App.Resultado) (k : Z) (v : float) :
  App.calcular_correlacao_com_lag df max_lag = Some r ->
  In (k, v) (App.correlacoes r) ->
  1 <= k <= max_lag.
Proof.
  intros Hr Hin. apply calcular_Some in Hr as [Hd _].
  rewrite Hd in Hin. now apply laco_In in Hin as [Hk _].
Qed.

End Resultado.

(** ** The join stage of 1_processamento_dados.py *)

Section Juncao.

Import Processamento.

Lemma join_In (rio clima : Serie) (r : Linha) :
  In r (join rio clima) <->
  exists l, In l rio /\ Data r = fst l /\ Nivel_m r = snd l /\
    ((exists m, In m clima /\ fst m = fst l /\ Precipitacao_mm r = snd m) \/
     ((forall m, In m clima -> fst m <> fst l) /\ Precipitacao_mm r = NaN)).
Proof.
  unfold join. rewrite in_flat_map. split.
  - intros [l [Hl Hin]]. exists l. split; [assumption|].
    destruct (filter (fun m => fst m =? fst l) clima) as [|m0 ms] eqn:Hf.
    + destruct Hin as [<-|[]]. cbn. repeat split. right. split; [|reflexivity].
      intros m Hm Heq.
      assert (Hin : In m (filter (fun m => fst m =? fst l) clima)).
      { apply filter_In. split; [assumption|]. now apply Z.eqb_eq. }
      rewrite Hf in Hin. contradiction.
    + apply in_map_iff in Hin as [m [<- Hm]]. cbn. repeat split. left.
      exists m. rewrite <- Hf in Hm. apply filter_In in Hm as [Hm Heq].
      apply Z.eqb_eq in Heq. auto.
  - intros [l [Hl [Hd [Hn Hp]]]]. exists l. split; [assumption|].
    destruct r as [d n p]. cbn in Hd, Hn, Hp. subst d n.
    destruct Hp as [[m [Hm [Heq Hp]]]|[Hno Hp]].
    + assert (Hin : In m (filter (fun m => fst m =? fst l) clima)).
      { apply filter_In. split; [assumption|]. now apply Z.eqb_eq. }
      destruct (filter (fun m => fst m =? fst l) clima) as [|m0 ms];
        [contradiction|].
      apply in_map_iff. exists m. subst p. now split.
    + destruct (filter (fun m => fst m =? fst l) clima) as [|m0 ms] eqn:Hf.
      * subst p. now left.
      * exfalso. assert (Hin : In m0 (filter (fun m => fst m =? fst l) clima))
          by (rewrite Hf; now left).
        apply filter_In in Hin as [Hin Heq]. apply Z.eqb_eq in Heq.
        now apply (Hno m0).
Qed.

Lemma df_final_In (rio clima : Serie) (r : Linha) :
  In r (df_final rio clima) <->
  exists r0, In r0 (join rio clima) /\
    r = mkLinha (Data r0) (Nivel_m r0) (fillna 0 (Precipitacao_mm r0)) /\
    notna (Nivel_m r0) = true.
Proof.
  unfold df_final, dropna_linhas, preencher_chuva.
  rewrite filter_In, in_map_iff. split.
  - intros [[r0 [<- Hin]] Hn]. cbn in Hn. apply andb_true_iff in Hn as [Hn _].
    exists r0. auto.
  - intros [r0 [Hin [-> Hn]]]. split; [now exists r0|]. cbn.
    rewrite Hn. now destruct (Precipitacao_mm r0).
Qed.

(** C10. Every row of the consolidated table has both fields defined; a
    day of the river series that the rainfall series lacks gets
    precipitation 0; and every row comes from a day of the river series
    with that level. *)
Theorem df_final_sem_campos_ausentes (rio_diario clima_diario : Serie) :
  (forall r, In r (df_final rio_diario clima_diario) ->
     exists n p, Nivel_m r = Some n /\ Precipitacao_mm r = Some p) /\
  (forall d n, In (d, Some n) rio_diario ->
     (forall m, In m clima_diario -> fst m <> d) ->
     In (mkLinha d (Some n) (Some 0%Q)) (df_final rio_diario clima_diario)) /\
  (forall r, In r (df_final rio_diario clima_diario) ->
     In (Data r, Nivel_m r) rio_diario).
Proof.
  split; [|split].
  - intros r Hr. apply df_final_In in Hr as [r0 [_ [-> Hn]]]. cbn.
    destruct (Nivel_m r0) as [n|]; [|discriminate].
    exists n. destruct (Precipitacao_mm r0) as [p|]; cbn; eauto.
  - intros d n Hin Hno. apply df_final_In.
    exists (mkLinha d (Some n) NaN). cbn. repeat split.
    apply join_In. exists (d, Some n). cbn. repeat split; auto.
  - intros r Hr. apply df_final_In in Hr as [r0 [Hj [-> _]]]. cbn.
    apply join_In in Hj as [l [Hl [Hd [Hn _]]]].
    rewrite Hd, Hn. now destruct l.
Qed.

Lemma filter_chave_crescente (g : Z -> float) (R : list Z) (d : Z) :
  crescente R -> In d R ->
  filter (fun m => fst m =? d) (map (fun x => (x, g x)) R) = [(d, g d)].
Proof.
  induction 1 as [|x R Hlt Hs IH]; intros Hin; [contradiction|].
  cbn [map filter fst]. destruct (Z.eqb_spec x d) as [->|Hne].
  - f_equal. clear IH Hin Hs. induction R as [|y R IH]; [reflexivity|].
    cbn [map filter fst]. destruct (Z.eqb_spec y d) as [->|_].
    + specialize (Hlt d (or_introl eq_refl)). lia.
    + apply IH. intros z Hz. apply Hlt. now right.
  - destruct Hin as [Heq|Hin]; [contradiction|]. now apply IH.
Qed.

(** Joining a level series with defined values to a rainfall series that
    holds, once each and in increasing order, every day of the level
    series keeps the level days unchanged. *)
Lemma df_final_faixas (nivel : Z -> Q) (chuva : Z -> float) (L R : list Z) :
  crescente R -> (forall d, In d L -> In d R) ->
  df_final (map (fun d => (d, Some (nivel d))) L)
           (map (fun d => (d, chuva d)) R)
  = map (fun d => mkLinha d (Some (nivel d)) (fillna 0 (chuva d))) L.
Proof.
  intros HR Hsub.
  assert (Hjoin : join (map (fun d => (d, Some (nivel d))) L)
                       (map (fun d => (d, chuva d)) R)
                  = map (fun d => mkLinha d (Some (nivel d)) (chuva d)) L).
  { unfold join. induction L as [|d L IH]; [reflexivity|].
    cbn [map flat_map fst snd].
    rewrite (filter_chave_crescente chuva R d HR) by (apply Hsub; now left).
    cbn [map app snd]. f_equal. apply IH. intros x Hx. apply Hsub. now right. }
  unfold df_final. rewrite Hjoin. clear Hjoin Hsub.
  unfold dropna_linhas, preencher_chuva.
  induction L as [|d L IH]; [reflexivity|].
  cbn [map filter Data Nivel_m Precipitacao_mm notna andb].
  rewrite IH. now destruct (chuva d).
Qed.

(** C7. A rainfall series on days 1..100 joined to a level series on
    days 50..100 gives exactly the days 50..100, in order, each with its
    level and its rainfall (zero where the rainfall cell was NaN). *)
Theorem dias_50_a_100 (nivel : Z -> Q) (chuva : Z -> float) :
  df_final (map (fun d => (d, Some (nivel d))) (py_range 50 101))
           (map (fun d => (d, chuva d)) (py_range 1 101))
  = map (fun d => mkLinha d (Some (nivel d)) (fillna 0 (chuva d)))
        (py_range 50 101).
Proof.
  apply df_final_faixas.
  - apply py_range_crescente.
  - intros d Hd. apply py_range_In in Hd. apply py_range_In. lia.
Qed.

End Juncao.

(** ** Daily resampling *)

Lemma fold_min_spec (x0 : Z) (l : list Z) :
  fold_right Z.min x0 l <= x0 /\
  (forall y, In y l -> fold_right Z.min x0 l <= y) /\
  (fold_right Z.min x0 l = x0 \/ In (fold_right Z.min x0 l) l).
Proof.
  induction l as [|a l [IH1 [IH2 IH3]]]; cbn.
  - repeat split; [lia|intros y []|now left].
  - repeat split.
    + lia.
    + intros y [<-|Hy]; [lia|]. specialize (IH2 y Hy). lia.
    + destruct (Z.min_spec a (fold_right Z.min x0 l)) as [[_ ->]|[_ ->]];
        [right; now left|].
      destruct IH3 as [->|Hin]; [now left|right; now right].
Qed.

Lemma fold_max_spec (x0 : Z) (l : list Z) :
  x0 <= fold_right Z.max x0 l /\
  (forall y, In y l -> y <= fold_right Z.max x0 l) /\
  (fold_right Z.max x0 l = x0 \/ In (fold_right Z.max x0 l) l).
Proof.
  induction l as [|a l [IH1 [IH2 IH3]]]; cbn.
  - repeat split; [lia|intros y []|now left].
  - repeat split.
    + lia.
    + intros y [<-|Hy]; [lia|]. specialize (IH2 y Hy). lia.
    + destruct (Z.max_spec a (fold_right Z.max x0 l)) as [[_ ->]|[_ ->]].
      * destruct IH3 as [->|Hin]; [now left|right; now right].
      * right; now left.
Qed.

(** The bins of [resample('D')] are the days between two observations. *)
Lemma dias_cobertos_In (obs : Serie) (d : Z) :
  In d (dias_cobertos obs) <->
  exists o1 o2, In o1 obs /\ In o2 obs /\
                dia_de (fst o1) <= d <= dia_de (fst o2).
Proof.
  unfold dias_cobertos. destruct obs as [|[t v] r].
  - split; [intros []|intros [o1 [_ [[] _]]]].
  - set (obs := (t, v) :: r). set (ds := map (fun o => dia_de (fst o)) obs).
    rewrite py_range_In.
    destruct (fold_min_spec (dia_de t) ds) as [_ [Hmin Hminin]].
    destruct (fold_max_spec (dia_de t) ds) as [_ [Hmax Hmaxin]].
    assert (Hds : forall x, In x ds <-> exists o, In o obs /\ dia_de (fst o) = x).
    { intros x. unfold ds. rewrite in_map_iff. split; intros [o [H1 H2]]; eauto. }
    assert (Ht : In (dia_de t) ds) by (apply Hds; exists (t, v); split; [now left|reflexivity]).
    split.
    + intros Hd.
      assert (Hlo : In (fold_right Z.min (dia_de t) ds) ds)
        by (destruct Hminin as [->|Hin]; assumption).
      assert (Hhi : In (fold_right Z.max (dia_de t) ds) ds)
        by (destruct Hmaxin as [->|Hin]; assumption).
      apply Hds in Hlo as [o1 [Ho1 Hd1]]. apply Hds in Hhi as [o2 [Ho2 Hd2]].
      exists o1, o2. repeat split; try assumption; lia.
    + intros [o1 [o2 [Ho1 [Ho2 Hd]]]].
      assert (H1 : In (dia_de (fst o1)) ds) by (apply Hds; eauto).
      assert (H2 : In (dia_de (fst o2)) ds) by (apply Hds; eauto).
      specialize (Hmin _ H1). specialize (Hmax _ H2). lia.
Qed.

Lemma valores_do_dia_tem_obs (d : Z) (obs : Serie) :
  valores_do_dia d obs <> [] ->
  exists o, In o obs /\ dia_de (fst o) = d.
Proof.
  unfold valores_do_dia. intros Hne.
  destruct (filter (fun o => dia_de (fst o) =? d) obs) as [|o r] eqn:Hf;
    [now elim Hne|].
  assert (Hin : In o (filter (fun o => dia_de (fst o) =? d) obs))
    by (rewrite Hf; now left).
  apply filter_In in Hin as [Hin Heq]. apply Z.eqb_eq in Heq. eauto.
Qed.

Lemma valores_do_dia_sem_obs (d : Z) (obs : Serie) :
  (forall o, In o obs -> dia_de (fst o) <> d) -> valores_do_dia d obs = [].
Proof.
  intros Hno. unfold valores_do_dia.
  destruct (filter (fun o => dia_de (fst o) =? d) obs) as [|o r] eqn:Hf;
    [reflexivity|].
  assert (Hin : In o (filter (fun o => dia_de (fst o) =? d) obs))
    by (rewrite Hf; now left).
  apply filter_In in Hin as [Hin Heq]. apply Z.eqb_eq in Heq.
  now elim (Hno o Hin).
Qed.

Lemma resample_sum_In (obs : Serie) (d : Z) (v : float) :
  In (d, v) (resample_sum obs) <->
  In d (dias_cobertos obs) /\ v = Some (Qsum (valores_do_dia d obs)).
Proof.
  unfold resample_sum. rewrite in_map_iff. split.
  - intros [d' [Heq Hin]]. inversion Heq; subst. now split.
  - intros [Hin ->]. now exists d.
Qed.

Lemma resample_mean_In (obs : Serie) (d : Z) (v : float) :
  In (d, v) (resample_mean obs) <->
  In d (dias_cobertos obs) /\ v = media (valores_do_dia d obs).
Proof.
  unfold resample_mean. rewrite in_map_iff. split.
  - intros [d' [Heq Hin]]. inversion Heq; subst. now split.
  - intros [Hin ->]. now exists d.
Qed.

(** The daily mean keeps exactly the days with a valid observation. *)
Lemma media_diaria_In (obs : Serie) (d : Z) (v : float) :
  In (d, v) (dropna (resample_mean obs)) <->
  valores_do_dia d obs <> [] /\
  v = Some (Qsum (valores_do_dia d obs)
            / inject_Z (Z.of_nat (length (valores_do_dia d obs))))%Q.
Proof.
  unfold dropna. rewrite filter_In, resample_mean_In. cbn [snd]. split.
  - intros [[Hd ->] Hn]. destruct (valores_do_dia d obs) as [|q qs];
      [discriminate|]. split; [discriminate|reflexivity].
  - intros [Hne ->]. repeat split.
    + apply dias_cobertos_In.
      destruct (valores_do_dia_tem_obs d obs Hne) as [o [Ho Hd]].
      exists o, o. repeat split; try assumption; lia.
    + destruct (valores_do_dia d obs); [now elim Hne|reflexivity].
Qed.

(** The values a bin receives, read off the observations themselves:
    the non-absent values, in table order, of the rows whose timestamp
    falls on the day. *)
Lemma valores_do_dia_sobre_obs (d : Z) (obs : Serie) :
  valores_do_dia d obs
  = flat_map (fun o => match snd o with
                       | Some q => if fst o / 86400 =? d then [q] else []
                       | None => []
                       end) obs.
Proof.
  unfold valores_do_dia, dia_de.
  induction obs as [|[t [q|]] r IH]; [reflexivity| |];
    cbn [filter map validos flat_map fst snd];
    destruct (t / 86400 =? d); cbn [map validos app]; now rewrite <- IH.
Qed.

Lemma valores_do_dia_nao_vazio (d : Z) (obs : Serie) :
  valores_do_dia d obs <> [] <->
  exists t q, In (t, Some q) obs /\ t / 86400 = d.
Proof.
  rewrite valores_do_dia_sobre_obs. split.
  - intros Hne.
    match type of Hne with ?l <> [] =>
      destruct l as [|q qs] eqn:Hf; [now elim Hne|] end.
    assert (Hin : In q (q :: qs)) by now left.
    rewrite <- Hf in Hin. apply in_flat_map in Hin as [[t v] [Ho Hq]].
    cbn [fst snd] in Hq. destruct v as [q'|]; [|destruct Hq].
    destruct (t / 86400 =? d) eqn:Hd; [|destruct Hq].
    apply Z.eqb_eq in Hd. exists t, q'. now split.
  - intros [t [q [Ho Hd]]] Hvazio.
    match type of Hvazio with ?l = [] => assert (Hin : In q l) end.
    { apply in_flat_map. exists (t, Some q). split; [assumption|].
      cbn [fst snd]. apply Z.eqb_eq in Hd. rewrite Hd. now left. }
    rewrite Hvazio in Hin. destruct Hin.
Qed.

Section Reamostragem.

Context `{Biblioteca}.
Import Processamento.

(** C8. The daily river series holds exactly the days on which the
    parsed river table has at least one non-absent reading, and gives
    each of them the arithmetic mean of the non-absent readings of that
    day: their sum over their number, the absent readings left out of
    both.  A day without a non-absent reading is not in the series.  The
    day of a timestamp is its quotient by 86400 seconds. *)
Theorem media_diaria_do_rio (rows : list LinhaRio) (obs : Serie) :
  df_rio rows = Ok obs ->
  exists s, df_rio_diario rows = Ok s /\
    (forall d v, In (d, v) s <->
       let qs := flat_map (fun o => match snd o with
                                    | Some q =>
                                        if fst o / 86400 =? d then [q] else []
                                    | None => []
                                    end) obs in
       (exists t q, In (t, Some q) obs /\ t / 86400 = d) /\
       v = Some (fold_right Qplus 0%Q qs
                 / inject_Z (Z.of_nat (length qs)))%Q) /\
    (forall d, (forall t q, In (t, Some q) obs -> t / 86400 <> d) ->
               ~ In d (map fst s)).
Proof.
  intros Hobs. exists (dropna (resample_mean obs)). split; [|split].
  - unfold df_rio_diario. now rewrite Hobs.
  - intros d v. cbv zeta.
    rewrite <- valores_do_dia_sobre_obs, <- valores_do_dia_nao_vazio.
    apply media_diaria_In.
  - intros d Hvazio Hin. apply in_map_iff in Hin as [[d' v] [Hd Hin]].
    cbn in Hd. subst d'. apply media_diaria_In in Hin as [Hne _].
    apply valores_do_dia_nao_vazio in Hne as [t [q [Ho Hd]]].
    exact (Hvazio t q Ho Hd).
Qed.

End Reamostragem.

(** ** Parsing *)

Section Leitura.

Context `{Biblioteca}.

Lemma to_datetime_Ok (fmt : string) (col : list string) (ts : list Z) :
  to_datetime fmt col = Ok ts <-> map (strptime fmt) col = map Some ts.
Proof.
  revert ts. induction col as [|s col IH]; intros ts; cbn.
  - split.
    + intros Heq. inversion Heq. reflexivity.
    + destruct ts; [reflexivity|discriminate].
  - destruct (strptime fmt s) as [t|].
    + destruct (to_datetime fmt col) as [ts'|e]; cbn.
      * split.
        -- intros Heq. inversion Heq; subst. cbn. f_equal. now apply IH.
        -- destruct ts as [|t0 ts]; [discriminate|]. cbn. intros Heq.
           inversion Heq; subst. f_equal. f_equal.
           assert (Hok : Ok ts' = Ok ts) by now apply IH.
           now inversion Hok.
      * split; [discriminate|].
        destruct ts as [|t0 ts]; [discriminate|]. cbn. intros Heq.
        inversion Heq; subst.
        assert (Hok : @Erro (list Z) e = Ok ts) by now apply IH.
        discriminate.
    + split; [discriminate|]. destruct ts; discriminate.
Qed.

Lemma to_datetime_Erro (fmt : string) (col : list string) :
  (exists s, In s col /\ strptime fmt s = None) <->
  to_datetime fmt col = Erro ValueError.
Proof.
  induction col as [|s col IH]; cbn.
  - split; [intros [s [[] _]]|discriminate].
  - destruct (strptime fmt s) as [t|] eqn:Hs.
    + destruct (to_datetime fmt col) as [ts'|e] eqn:Hcol; cbn.
      * split; [|discriminate]. intros [s' [[<-|Hin] Hnone]]; [congruence|].
        assert (Herr : @Ok (list Z) ts' = Erro ValueError) by (apply IH; eauto).
        discriminate.
      * split.
        -- intros [s' [[<-|Hin] Hnone]]; [congruence|]. apply IH. eauto.
        -- intros He. destruct IH as [_ IH]. destruct (IH He) as [s' [Hin Hn]].
           eauto.
    + split; [reflexivity|]. intros _. exists s. auto.
Qed.

Lemma to_datetime_length (fmt : string) (col : list string) (ts : list Z) :
  to_datetime fmt col = Ok ts -> length ts = length col.
Proof.
  intros Hok. apply to_datetime_Ok in Hok.
  apply (f_equal (@length (option Z))) in Hok.
  now rewrite !length_map in Hok.
Qed.

Lemma astype_float_Erro (col : list string) :
  (exists s, In s col /\ str_to_float s = None) ->
  astype_float col = Erro ValueError.
Proof.
  induction col as [|s col IH]; cbn.
  - intros [s [[] _]].
  - intros [s' [Hin Hnone]]. destruct (str_to_float s) as [x|] eqn:Hs;
      [|reflexivity].
    destruct Hin as [<-|Hin]; [congruence|].
    rewrite IH by eauto. reflexivity.
Qed.

Lemma astype_float_Erro_inv (col : list string) (e : excecao) :
  astype_float col = Erro e ->
  exists s, In s col /\ str_to_float s = None.
Proof.
  induction col as [|s col IH]; cbn; [discriminate|].
  destruct (str_to_float s) eqn:Hs; [|intros _; exists s; auto].
  destruct (astype_float col); cbn; [discriminate|].
  intros Heq. destruct IH as [s' [Hin Hn]]; [congruence|].
  exists s'. auto.
Qed.

Lemma astype_float_so_ValueError (col : list string) (e : excecao) :
  astype_float col = Erro e -> e = ValueError.
Proof.
  induction col as [|s col IH]; cbn; [discriminate|].
  destruct (str_to_float s); [|congruence].
  destruct (astype_float col); cbn; [discriminate|].
  intros Heq. apply IH. congruence.
Qed.

Lemma to_datetime_so_ValueError (fmt : string) (col : list string) (e : excecao) :
  to_datetime fmt col = Erro e -> e = ValueError.
Proof.
  induction col as [|s col IH]; cbn; [discriminate|].
  destruct (strptime fmt s); [|congruence].
  destruct (to_datetime fmt col); cbn; [discriminate|].
  intros Heq. apply IH. congruence.
Qed.

Lemma snd_combine {A B : Type} (a : list A) (b : list B) :
  length a = length b -> map snd (combine a b) = b.
Proof.
  revert b. induction a as [|x a IH]; intros [|y b]; cbn; try discriminate;
    try reflexivity.
  intros Hlen. f_equal. apply IH. now inversion Hlen.
Qed.

Lemma fst_combine {A B : Type} (a : list A) (b : list B) :
  length a = length b -> map fst (combine a b) = a.
Proof.
  revert b. induction a as [|x a IH]; intros [|y b]; cbn; try discriminate;
    try reflexivity.
  intros Hlen. f_equal. apply IH. now inversion Hlen.
Qed.

Lemma to_datetime_todos (fmt : string) (col : list string) :
  (forall s, In s col -> strptime fmt s <> None) ->
  exists ts, to_datetime fmt col = Ok ts.
Proof.
  induction col as [|s col IH]; cbn; intros Hall.
  - now exists [].
  - destruct (strptime fmt s) as [t|] eqn:Hs.
    + destruct IH as [ts ->]; [intros s' Hs'; apply Hall; now right|].
      cbn. now exists (t :: ts).
    + exfalso. apply (Hall s); auto.
Qed.

(** A column of timestamps zipped with a column of values: it parses as
    a whole or not at all, and keeps one observation per row, in order. *)
Lemma indexar_Ok (fmt : string) (col : list string) (vals : list float)
    (obs : Serie) :
  length col = length vals ->
  ligar (to_datetime fmt col) (fun ts => Ok (combine ts vals)) = Ok obs ->
  length obs = length col /\
  map snd obs = vals /\
  map (fun o => Some (fst o)) obs = map (strptime fmt) col.
Proof.
  intros Hlen.
  destruct (to_datetime fmt col) as [ts|e] eqn:Hts; cbn; [|discriminate].
  intros Heq. inversion Heq; subst. clear Heq.
  assert (Hlts : length ts = length vals).
  { rewrite (to_datetime_length _ _ _ Hts). assumption. }
  repeat split.
  - rewrite length_combine, Hlts, Nat.min_id. now symmetry.
  - now apply snd_combine.
  - apply to_datetime_Ok in Hts.
    rewrite <- (map_map fst Some), fst_combine by assumption.
    now rewrite Hts.
Qed.

Lemma indexar_Erro (fmt : string) (col : list string) (vals : list float) :
  (exists s, In s col /\ strptime fmt s = None) <->
  ligar (to_datetime fmt col) (fun ts => Ok (combine ts vals))
  = Erro ValueError.
Proof.
  rewrite to_datetime_Erro.
  destruct (to_datetime fmt col) as [ts|e]; cbn; split; congruence.
Qed.

Lemma celula_na_posicao (obs : Serie) (vals : list float) (i : nat) (v : float) :
  map snd obs = vals -> nth_error vals i = Some v ->
  exists t, nth_error obs i = Some (t, v).
Proof.
  intros <- Hnth. rewrite nth_error_map in Hnth.
  destruct (nth_error obs i) as [[t v']|]; cbn in Hnth; [|discriminate].
  inversion Hnth; subst. now exists t.
Qed.

End Leitura.

(** ** Parsing the raw tables *)

Section LeituraGeral.

Context `{Biblioteca}.

Lemma to_datetime_celula_Erro (fmt : string) (c : Bruto.celula) :
  malformado fmt c <-> Bruto.to_datetime_celula fmt c = Erro ValueError.
Proof.
  unfold malformado, Bruto.to_datetime_celula. split.
  - intros [s [-> [Hn Hp]]]. now rewrite Hn, Hp.
  - destruct c as [s|]; [|discriminate].
    destruct (Bruto.texto_nat s) eqn:Hn; [discriminate|].
    destruct (strptime fmt s) eqn:Hp; [discriminate|].
    intros _. now exists s.
Qed.

Lemma to_datetime_celula_so_ValueError (fmt : string) (c : Bruto.celula)
    (e : excecao) :
  Bruto.to_datetime_celula fmt c = Erro e -> e = ValueError.
Proof.
  unfold Bruto.to_datetime_celula. destruct c as [s|]; [|discriminate].
  destruct (Bruto.texto_nat s); [discriminate|].
  destruct (strptime fmt s); [discriminate|congruence].
Qed.

Lemma to_datetime_celula_Ok (fmt : string) (c : Bruto.celula) (t : option Z) :
  Bruto.to_datetime_celula fmt c = Ok t -> instante_de fmt c t.
Proof.
  unfold Bruto.to_datetime_celula, instante_de. destruct c as [s|].
  - destruct (Bruto.texto_nat s); [congruence|].
    destruct (strptime fmt s) as [x|]; [|discriminate].
    intros Heq. inversion Heq. now exists x.
  - congruence.
Qed.

Lemma bruto_to_datetime_so_ValueError (fmt : string) (col : list Bruto.celula)
    (e : excecao) :
  Bruto.to_datetime fmt col = Erro e -> e = ValueError.
Proof.
  induction col as [|c col IH]; cbn [Bruto.to_datetime]; [discriminate|].
  destruct (Bruto.to_datetime_celula fmt c) as [t|e'] eqn:Hc.
  - destruct (Bruto.to_datetime fmt col); cbn; [discriminate|].
    intros Heq. apply IH. congruence.
  - intros Heq. inversion Heq; subst.
    now apply to_datetime_celula_so_ValueError in Hc.
Qed.

Lemma bruto_to_datetime_Erro (fmt : string) (col : list Bruto.celula) :
  (exists c, In c col /\ malformado fmt c) <->
  Bruto.to_datetime fmt col = Erro ValueError.
Proof.
  induction col as [|c col IH]; cbn [Bruto.to_datetime].
  - split; [intros [c [[] _]]|discriminate].
  - destruct (Bruto.to_datetime_celula fmt c) as [t|e] eqn:Hc.
    + assert (Hok : ~ malformado fmt c).
      { intros Hm. apply to_datetime_celula_Erro in Hm. congruence. }
      destruct (Bruto.to_datetime fmt col) as [ts|e] eqn:Hcol; cbn.
      * split; [|discriminate]. intros [c' [[<-|Hin] Hm]]; [contradiction|].
        assert (Herr : @Ok (list (option Z)) ts = Erro ValueError)
          by (apply IH; eauto).
        discriminate.
      * split.
        -- intros [c' [[<-|Hin] Hm]]; [contradiction|]. apply IH. eauto.
        -- intros He. destruct IH as [_ IH].
           destruct (IH He) as [c' [Hin Hm]]. eauto.
    + apply to_datetime_celula_so_ValueError in Hc as He. subst e.
      split; [reflexivity|]. intros _. exists c. split; [now left|].
      now apply to_datetime_celula_Erro.
Qed.

Lemma bruto_to_datetime_Ok (fmt : string) (col : list Bruto.celula)
    (ts : list (option Z)) :
  Bruto.to_datetime fmt col = Ok ts -> Forall2 (instante_de fmt) col ts.
Proof.
  revert ts. induction col as [|c col IH]; intros ts; cbn [Bruto.to_datetime].
  - intros Heq. inversion Heq. constructor.
  - destruct (Bruto.to_datetime_celula fmt c) as [t|e] eqn:Hc; [|discriminate].
    destruct (Bruto.to_datetime fmt col) as [ts'|e]; cbn; [|discriminate].
    intros Heq. inversion Heq; subst. constructor.
    + now apply to_datetime_celula_Ok.
    + now apply IH.
Qed.

Lemma bruto_to_datetime_todos (fmt : string) (col : list Bruto.celula) :
  (forall c, In c col -> ~ malformado fmt c) ->
  exists ts, Bruto.to_datetime fmt col = Ok ts.
Proof.
  intros Hall.
  destruct (Bruto.to_datetime fmt col) as [ts|e] eqn:Hcol; [now exists ts|].
  apply bruto_to_datetime_so_ValueError in Hcol as He. subst e.
  apply bruto_to_datetime_Erro in Hcol as [c [Hin Hm]].
  now elim (Hall c Hin).
Qed.

Lemma Forall2_indexar {R : Type} (fmt : string) (carimbo : R -> Bruto.celula)
    (val : R -> float) (rows : list R) (ts : list (option Z)) :
  Forall2 (instante_de fmt) (map carimbo rows) ts ->
  Forall2 (fun r o => instante_de fmt (carimbo r) (fst o))
          rows (combine ts (map val rows)).
Proof.
  revert ts. induction rows as [|r rows IH]; intros ts Hf; cbn [map] in Hf.
  - inversion Hf; subst. constructor.
  - inversion Hf as [|c t col ts' Hc Hrest]; subst. cbn [map combine].
    constructor; [exact Hc|]. now apply IH.
Qed.

(** A table indexed by [pd.to_datetime] and zipped with a value column
    that is computed without an error parses as a whole or not at all. *)
Lemma tudo_ou_nada_indexar {R : Type} (fmt : string)
    (carimbo : R -> Bruto.celula) (val : R -> float) :
  tudo_ou_nada fmt carimbo
    (fun rows => ligar (Bruto.to_datetime fmt (map carimbo rows))
                       (fun ts => Ok (combine ts (map val rows)))).
Proof.
  intros rows.
  assert (Hbad : (exists r, In r rows /\ malformado fmt (carimbo r)) <->
                 exists c, In c (map carimbo rows) /\ malformado fmt c).
  { split.
    - intros [r [Hin Hm]]. exists (carimbo r). split; [now apply in_map|assumption].
    - intros [c [Hin Hm]]. apply in_map_iff in Hin as [r [<- Hin]]. eauto. }
  split; [|split].
  - rewrite Hbad, bruto_to_datetime_Erro.
    destruct (Bruto.to_datetime fmt (map carimbo rows)); cbn; split;
      intros Heq; inversion Heq; reflexivity.
  - split.
    + intros Hall.
      destruct (bruto_to_datetime_todos fmt (map carimbo rows)) as [ts Hts].
      { intros c Hin Hm. apply in_map_iff in Hin as [r [<- Hin]].
        now apply (Hall r). }
      rewrite Hts. cbn. eauto.
    + intros [obs Hobs] r Hin Hm.
      assert (Herr : Bruto.to_datetime fmt (map carimbo rows) = Erro ValueError).
      { apply bruto_to_datetime_Erro. exists (carimbo r).
        split; [now apply in_map|assumption]. }
      rewrite Herr in Hobs. discriminate.
  - intros obs.
    destruct (Bruto.to_datetime fmt (map carimbo rows)) as [ts|e] eqn:Hts;
      cbn; [|discriminate].
    intros Heq. inversion Heq; subst.
    apply Forall2_indexar. now apply bruto_to_datetime_Ok.
Qed.

Lemma bruto_astype_float_length (col : list Bruto.celula) (vs : list float) :
  Bruto.astype_float col = Ok vs -> length vs = length col.
Proof.
  revert vs. induction col as [|[s|] col IH]; intros vs;
    cbn [Bruto.astype_float].
  - intros Heq. now inversion Heq.
  - destruct (str_to_float s); [|discriminate].
    destruct (Bruto.astype_float col) as [vs'|]; cbn; [|discriminate].
    intros Heq. inversion Heq; subst. cbn. f_equal. now apply IH.
  - destruct (Bruto.astype_float col) as [vs'|]; cbn; [|discriminate].
    intros Heq. inversion Heq; subst. cbn. f_equal. now apply IH.
Qed.

Lemma bruto_astype_float_convertidos (col : list Bruto.celula) (vs : list float) :
  Bruto.astype_float col = Ok vs ->
  forall s, In (Some s) col -> str_to_float s <> None.
Proof.
  revert vs. induction col as [|[s0|] col IH]; intros vs Hvs s Hin;
    [contradiction| |]; cbn [Bruto.astype_float] in Hvs.
  - destruct (str_to_float s0) eqn:Hs0; [|discriminate].
    destruct (Bruto.astype_float col) as [vs'|]; [|discriminate].
    destruct Hin as [Heq|Hin]; [inversion Heq; subst; congruence|].
    now apply (IH vs').
  - destruct (Bruto.astype_float col) as [vs'|]; [|discriminate].
    destruct Hin as [Heq|Hin]; [discriminate|]. now apply (IH vs').
Qed.

Lemma bruto_astype_float_todos (col : list Bruto.celula) :
  (forall s, In (Some s) col -> str_to_float s <> None) ->
  exists vs, Bruto.astype_float col = Ok vs.
Proof.
  induction col as [|[s|] col IH]; intros Hall; cbn [Bruto.astype_float].
  - now exists [].
  - destruct (str_to_float s) as [x|] eqn:Hs.
    + destruct IH as [vs ->]; [intros s' Hs'; apply Hall; now right|].
      cbn. eauto.
    + exfalso. apply (Hall s); [now left|assumption].
  - destruct IH as [vs ->]; [intros s' Hs'; apply Hall; now right|].
    cbn. eauto.
Qed.

(** *** The tables of present texts are a case of the raw tables *)

Lemma combine_map_Some (ts : list Z) (vs : list float) :
  combine (map Some ts) vs = map (fun o => (Some (fst o), snd o)) (combine ts vs).
Proof.
  revert vs. induction ts as [|t ts IH]; intros [|v vs]; cbn; try reflexivity.
  now rewrite IH.
Qed.

Lemma bruto_to_datetime_textos {R : Type} (fmt : string) (f : R -> string)
    (rows : list R) :
  (forall r, In r rows -> Bruto.texto_nat (f r) = false) ->
  Bruto.to_datetime fmt (map (fun r => Some (f r)) rows)
  = match to_datetime fmt (map f rows) with
    | Ok ts => Ok (map Some ts)
    | Erro e => Erro e
    end.
Proof.
  induction rows as [|r rows IH]; intros Hn; [reflexivity|].
  cbn [map Bruto.to_datetime Bruto.to_datetime_celula to_datetime].
  rewrite (Hn r) by now left.
  destruct (strptime fmt (f r)) as [t|]; [|reflexivity].
  rewrite IH by (intros r' Hr'; apply Hn; now right).
  now destruct (to_datetime fmt (map f rows)).
Qed.

Lemma bruto_astype_float_textos {R : Type} (f : R -> string) (rows : list R) :
  Bruto.astype_float (map (fun r => Some (f r)) rows) = astype_float (map f rows).
Proof.
  induction rows as [|r rows IH]; [reflexivity|].
  cbn [map Bruto.astype_float astype_float].
  destruct (str_to_float (f r)); [|reflexivity]. now rewrite IH.
Qed.

Lemma indexar_de_textos {R : Type} (fmt : string) (f : R -> string)
    (g : R -> float) (rows : list R) :
  (forall r, In r rows -> Bruto.texto_nat (f r) = false) ->
  (ts <- Bruto.to_datetime fmt (map (fun r => Some (f r)) rows) ;;
   Ok (combine ts (map g rows)))%res
  = match (ts <- to_datetime fmt (map f rows) ;;
           Ok (combine ts (map g rows)))%res with
    | Ok obs => Ok (map (fun o => (Some (fst o), snd o)) obs)
    | Erro e => Erro e
    end.
Proof.
  intros Hn. rewrite (bruto_to_datetime_textos fmt f rows Hn).
  destruct (to_datetime fmt (map f rows)) as [ts|e]; cbn; [|reflexivity].
  now rewrite combine_map_Some.
Qed.

(** On a river table of present texts, none a missing-value word, the
    general parse is the parse of [Processamento], row for row. *)
Lemma df_rio_de_textos (rows : list Processamento.LinhaRio) :
  (forall r, In r rows -> Bruto.texto_nat (fst r) = false) ->
  Bruto.df_rio
    (Bruto.RioObjeto (map (fun r => (Some (fst r), Some (snd r))) rows))
  = match Processamento.df_rio rows with
    | Ok obs => Ok (map (fun o => (Some (fst o), snd o)) obs)
    | Erro e => Erro e
    end.
Proof.
  intros Hn. unfold Bruto.df_rio, Processamento.df_rio.
  rewrite !map_map.
  exact (indexar_de_textos "%d/%m/%Y %H:%M" fst Processamento.nivel_de rows Hn).
Qed.

Lemma indexar_convertidos_de_textos {R : Type} (fmt : string)
    (f g : R -> string) (rows : list R) :
  (forall r, In r rows -> Bruto.texto_nat (f r) = false) ->
  (ts <- Bruto.to_datetime fmt (map (fun r => Some (f r)) rows) ;;
   vs <- Bruto.astype_float (map (fun r => Some (g r)) rows) ;;
   Ok (combine ts vs))%res
  = match (ts <- to_datetime fmt (map f rows) ;;
           vs <- astype_float (map g rows) ;;
           Ok (combine ts vs))%res with
    | Ok obs => Ok (map (fun o => (Some (fst o), snd o)) obs)
    | Erro e => Erro e
    end.
Proof.
  intros Hn. rewrite (bruto_to_datetime_textos fmt f rows Hn).
  rewrite (bruto_astype_float_textos g rows).
  destruct (to_datetime fmt (map f rows)) as [ts|e]; cbn [ligar];
    [|reflexivity].
  destruct (astype_float (map g rows)) as [vs|e]; cbn [ligar]; [|reflexivity].
  now rewrite combine_map_Some.
Qed.

(** The same for the rainfall table of the batch script. *)
Lemma df_clima_de_textos (rows : list Processamento.LinhaClima) :
  (forall r, In r rows -> Bruto.texto_nat (fst r) = false) ->
  Bruto.df_clima
    (Bruto.ClimaObjeto (map (fun r => (Some (fst r), Some (snd r))) rows))
  = match Processamento.df_clima rows with
    | Ok obs => Ok (map (fun o => (Some (fst o), snd o)) obs)
    | Erro e => Erro e
    end.
Proof.
  intros Hn. unfold Bruto.df_clima, Processamento.df_clima.
  cbn [Bruto.carimbos]. rewrite !map_map.
  exact (indexar_convertidos_de_textos "%Y/%m/%d %H:%M" fst
           (fun r => str_replace "," "." (snd r)) rows Hn).
Qed.

(** The same for the level records of process_data.py. *)
Lemma df_nivel_de_textos (rows : list ProcessData.LinhaNivel) :
  (forall r, In r rows ->
     Bruto.texto_nat (String.append (ProcessData.Data_txt r)
                        (String.append " " (ProcessData.Hora r))) = false) ->
  Bruto.df_nivel
    (map (fun r => Bruto.mkLinhaNivel (Some (ProcessData.Data_txt r))
                     (Some (ProcessData.Hora r))
                     (Bruto.Texto (ProcessData.Nivel_1 r))) rows)
  = match ProcessData.df_nivel rows with
    | Ok obs => Ok (map (fun o => (Some (fst o), snd o)) obs)
    | Erro e => Erro e
    end.
Proof.
  intros Hn. unfold Bruto.df_nivel, ProcessData.df_nivel.
  rewrite !map_map.
  exact (indexar_de_textos "%d/%m/%Y %H:%M:%S"
           (fun r => String.append (ProcessData.Data_txt r)
                       (String.append " " (ProcessData.Hora r)))
           ProcessData.nivel_cm_de rows Hn).
Qed.

End LeituraGeral.

Section Scripts.

Context `{Biblioteca}.

Lemma Forall2_indexar_valores {R : Type} (fmt : string)
    (carimbo : R -> Bruto.celula) (rows : list R)
    (ts : list (option Z)) (vs : list float) :
  length vs = length rows ->
  Forall2 (instante_de fmt) (map carimbo rows) ts ->
  Forall2 (fun r o => instante_de fmt (carimbo r) (fst o))
          rows (combine ts vs).
Proof.
  revert ts vs. induction rows as [|r rows IH]; intros ts vs Hlen Hf;
    cbn [map] in Hf.
  - inversion Hf; subst. constructor.
  - inversion Hf as [|c t col ts' Hc Hrest]; subst.
    destruct vs as [|v vs]; [discriminate|]. cbn [combine].
    constructor; [exact Hc|]. apply IH; [|assumption].
    cbn in Hlen. now inversion Hlen.
Qed.

(** C5, as the scripts behave, for the three raw tables whose
    timestamps are read against an explicit format: the river table and
    the rainfall table of 1_processamento_dados.py and the level table
    of process_data.py.  A timestamp text that is neither in the format
    nor a missing-value word is not skipped: it ends the whole parse
    with a ValueError, whatever the other rows are.  A null timestamp
    cell and a missing-value word (such as the empty text or "NaT")
    raise nothing and give the timestamp NaT.  The river table (with a
    measurement column of dtype object) and the level table parse
    exactly when no timestamp cell is malformed; the rainfall table
    needs in addition a precipitation column of dtype object whose
    texts are all numbers.  A parse that succeeds holds one observation
    per input row, in order, under the timestamp of its cell, and
    records no count; a numeric measurement column of the river table
    raises an AttributeError, and so does a numeric precipitation
    column once the timestamps are read. *)
Theorem timestamp_invalido_interrompe :
  tudo_ou_nada "%d/%m/%Y %H:%M" fst
    (fun rows => Bruto.df_rio (Bruto.RioObjeto rows)) /\
  tudo_ou_nada "%d/%m/%Y %H:%M:%S" Bruto.texto_data_nivel Bruto.df_nivel /\
  (forall tab,
     (exists c, In c (Bruto.carimbos tab) /\ malformado "%Y/%m/%d %H:%M" c) ->
     Bruto.df_clima tab = Erro ValueError) /\
  (forall rows,
     ((forall r, In r rows -> ~ malformado "%Y/%m/%d %H:%M" (fst r)) /\
      (forall r s, In r rows -> snd r = Some s ->
         str_to_float (str_replace "," "." s) <> None)) <->
     exists obs, Bruto.df_clima (Bruto.ClimaObjeto rows) = Ok obs) /\
  (forall rows obs,
     Bruto.df_clima (Bruto.ClimaObjeto rows) = Ok obs ->
     Forall2 (fun r o => instante_de "%Y/%m/%d %H:%M" (fst r) (fst o))
             rows obs) /\
  (forall rows, Bruto.df_rio (Bruto.RioNumerico rows) = Erro AttributeError) /\
  (forall rows obs, Bruto.df_clima (Bruto.ClimaNumerico rows) <> Ok obs) /\
  (forall rows,
     (forall r, In r rows -> ~ malformado "%Y/%m/%d %H:%M" (fst r)) ->
     Bruto.df_clima (Bruto.ClimaNumerico rows) = Erro AttributeError).
Proof.
  split; [|split; [|split; [|split; [|split; [|split; [|split]]]]]].
  - exact (tudo_ou_nada_indexar "%d/%m/%Y %H:%M" fst
             (fun r => Bruto.nivel_de (snd r))).
  - exact (tudo_ou_nada_indexar "%d/%m/%Y %H:%M:%S" Bruto.texto_data_nivel
             (fun r => Bruto.to_numeric_coerce_valor (Bruto.Nivel_1 r))).
  - intros tab Hbad. unfold Bruto.df_clima.
    apply bruto_to_datetime_Erro in Hbad. now rewrite Hbad.
  - intros rows. unfold Bruto.df_clima. cbn [Bruto.carimbos].
    set (vals := map (fun r => option_map (str_replace "," ".") (snd r)) rows).
    assert (Hvals : (forall r s, In r rows -> snd r = Some s ->
                       str_to_float (str_replace "," "." s) <> None) <->
                    (forall s, In (Some s) vals -> str_to_float s <> None)).
    { unfold vals. split.
      - intros Hall s Hin. apply in_map_iff in Hin as [r [Heq Hin]].
        destruct (snd r) as [s0|] eqn:Hs; [|discriminate].
        cbn in Heq. inversion Heq; subst. now apply (Hall r s0).
      - intros Hall r s Hin Hs. apply Hall. apply in_map_iff.
        exists r. split; [|assumption]. now rewrite Hs. }
    rewrite Hvals. clear Hvals. split.
    + intros [Hts Hconv].
      destruct (bruto_astype_float_todos vals Hconv) as [vs Hvs].
      match goal with |- context [Bruto.to_datetime ?f ?c] =>
        destruct (bruto_to_datetime_todos f c) as [ts ->] end.
      { intros c Hin Hm. apply in_map_iff in Hin as [r [<- Hin]].
        now apply (Hts r). }
      cbn. rewrite Hvs. cbn. eauto.
    + intros [obs Hobs].
      match type of Hobs with context [Bruto.to_datetime ?f ?c] =>
        destruct (Bruto.to_datetime f c) as [ts|e] eqn:Hts end;
        cbn in Hobs; [|discriminate].
      split.
      * intros r Hin Hm.
        match type of Hts with ?lhs = _ =>
          assert (Herr : lhs = Erro ValueError) end.
        { apply bruto_to_datetime_Erro. exists (fst r).
          split; [now apply in_map|assumption]. }
        congruence.
      * destruct (Bruto.astype_float vals) as [vs|e] eqn:Hvs; cbn in Hobs;
          [|discriminate].
        now apply (bruto_astype_float_convertidos vals vs).
  - intros rows obs. unfold Bruto.df_clima. cbn [Bruto.carimbos].
    match goal with |- context [Bruto.to_datetime ?f ?c] =>
      destruct (Bruto.to_datetime f c) as [ts|e] eqn:Hts end;
      cbn; [|discriminate].
    set (vals := map (fun r => option_map (str_replace "," ".") (snd r)) rows).
    destruct (Bruto.astype_float vals) as [vs|e] eqn:Hvs; cbn; [|discriminate].
    intros Heq. inversion Heq; subst.
    apply Forall2_indexar_valores; [|now apply bruto_to_datetime_Ok].
    rewrite (bruto_astype_float_length vals vs Hvs). unfold vals.
    apply length_map.
  - reflexivity.
  - intros rows obs. unfold Bruto.df_clima.
    destruct (Bruto.to_datetime "%Y/%m/%d %H:%M"
                (Bruto.carimbos (Bruto.ClimaNumerico rows)));
      cbn; discriminate.
  - intros rows Hts. unfold Bruto.df_clima.
    destruct (bruto_to_datetime_todos "%Y/%m/%d %H:%M"
                (Bruto.carimbos (Bruto.ClimaNumerico rows))) as [ts ->];
      [|reflexivity].
    intros c Hin. cbn [Bruto.carimbos] in Hin.
    apply in_map_iff in Hin as [r [<- Hin]]. now apply Hts.
Qed.

(** C6, as the scripts behave. A river-level value whose text is not a
    number becomes NaN in the parsed observations, in both scripts. A
    rainfall value whose text is not a number becomes the number zero in
    process_data.py, and makes the conversion raise in
    1_processamento_dados.py. *)
Theorem valor_invalido_por_caminho :
  (forall rows obs i r,
     Processamento.df_rio rows = Ok obs ->
     nth_error rows i = Some r ->
     str_to_float (Processamento.limpar_medicao (snd r)) = None ->
     exists t, nth_error obs i = Some (t, NaN)) /\
  (forall rows obs i r,
     ProcessData.df_nivel rows = Ok obs ->
     nth_error rows i = Some r ->
     str_to_float (ProcessData.Nivel_1 r) = None ->
     exists t, nth_error obs i = Some (t, NaN)) /\
  (forall rows obs i r,
     ProcessData.df_chuva rows = Ok obs ->
     nth_error rows i = Some r ->
     str_to_float (ProcessData.CHUVA r) = None ->
     exists t, nth_error obs i = Some (t, Some 0%Q)) /\
  (forall rows,
     (exists r, In r rows /\
        str_to_float (str_replace "," "." (snd r)) = None) ->
     Processamento.df_clima rows = Erro ValueError).
Proof.
  split; [|split; [|split]].
  - intros rows obs i r Hobs Hr Hnum.
    apply indexar_Ok in Hobs as [_ [Hv _]]; [|now rewrite !length_map].
    apply (celula_na_posicao obs _ i NaN Hv).
    rewrite nth_error_map, Hr. cbn.
    unfold Processamento.nivel_de, to_numeric_coerce. now rewrite Hnum.
  - intros rows obs i r Hobs Hr Hnum.
    apply indexar_Ok in Hobs as [_ [Hv _]]; [|now rewrite !length_map].
    apply (celula_na_posicao obs _ i NaN Hv).
    rewrite nth_error_map, Hr. cbn.
    unfold ProcessData.nivel_cm_de, to_numeric_coerce. now rewrite Hnum.
  - intros rows obs i r Hobs Hr Hnum.
    apply indexar_Ok in Hobs as [_ [Hv _]]; [|now rewrite !length_map].
    apply (celula_na_posicao obs _ i (Some 0%Q) Hv).
    rewrite nth_error_map, Hr. cbn.
    unfold ProcessData.chuva_de, to_numeric_coerce. now rewrite Hnum.
  - intros rows [r [Hin Hnum]]. unfold Processamento.df_clima.
    destruct (to_datetime "%Y/%m/%d %H:%M" (map fst rows)) as [ts|e] eqn:Hts.
    + cbn. rewrite astype_float_Erro; [reflexivity|].
      exists (str_replace "," "." (snd r)). split; [|assumption].
      apply in_map_iff. now exists r.
    + cbn. f_equal. now apply to_datetime_so_ValueError in Hts.
Qed.


End Scripts.

(** ** The accumulated driver on a table without date gaps *)

Lemma validos_length_le (l : list float) : (length (validos l) <= length l)%nat.
Proof.
  induction l as [|[q|] l IH]; cbn; lia.
Qed.

Lemma validos_completo (l : list float) :
  (length l <=? length (validos l))%nat = forallb notna l.
Proof.
  induction l as [|[q|] l IH]; cbn [validos length forallb notna andb].
  - reflexivity.
  - exact IH.
  - pose proof (validos_length_le l). apply Nat.leb_gt. lia.
Qed.

Lemma skipn_firstn_nth (p : list float) (a w : nat) :
  (a + w <= length p)%nat ->
  skipn a (firstn (a + w) p) = map (fun j => nth (a + j) p NaN) (seq 0 w).
Proof.
  revert p. induction a as [|a IHa]; intros p Hlen.
  - cbn [skipn Nat.add]. revert p Hlen.
    induction w as [|w IHw]; intros p Hlen; [reflexivity|].
    destruct p as [|x p]; [cbn in Hlen; lia|].
    cbn [firstn seq map nth]. f_equal.
    rewrite <- seq_shift, map_map. cbn in Hlen. apply IHw. lia.
  - destruct p as [|x p]; [cbn in Hlen; lia|].
    cbn [Nat.add firstn skipn nth]. cbn in Hlen. apply IHa. lia.
Qed.

Lemma chuva_no_dia_fora (df : App.DataFrame) (d : Z) :
  ~ In d (map Data df) -> chuva_no_dia df d = NaN.
Proof.
  intros Hno. unfold chuva_no_dia.
  destruct (find (fun r => Data r =? d) df) as [r|] eqn:Hf; [|reflexivity].
  apply find_some in Hf as [Hin Heq]. apply Z.eqb_eq in Heq.
  exfalso. apply Hno. apply in_map_iff. now exists r.
Qed.

Lemma chuva_no_dia_consecutivo (df : App.DataFrame) (d0 : Z) (m : nat) :
  map Data df = py_range d0 (d0 + Z.of_nat (length df)) ->
  (m < length df)%nat ->
  chuva_no_dia df (d0 + Z.of_nat m) = nth m (map Precipitacao_mm df) NaN.
Proof.
  revert d0 m. induction df as [|r df IH]; intros d0 m Hd Hm; [cbn in Hm; lia|].
  rewrite py_range_cons in Hd by (cbn [length]; lia).
  cbn [map] in Hd. injection Hd as Hr Hrest.
  unfold chuva_no_dia. cbn [find map].
  destruct m as [|m].
  - destruct (Z.eqb_spec (Data r) (d0 + Z.of_nat 0)) as [_|Hne]; [reflexivity|lia].
  - destruct (Z.eqb_spec (Data r) (d0 + Z.of_nat (S m))) as [Heq|_]; [lia|].
    cbn [nth]. replace (d0 + Z.of_nat (S m)) with ((d0 + 1) + Z.of_nat m) by lia.
    apply IH.
    + rewrite Hrest. f_equal. cbn [length]. lia.
    + cbn in Hm. lia.
Qed.

Lemma nth_map_seq {A : Type} (f : nat -> A) (n i : nat) (d : A) :
  (i < n)%nat -> nth i (map f (seq 0 n)) d = f i.
Proof.
  intros Hi. rewrite (nth_indep _ d (f 0%nat)) by (now rewrite length_map, length_seq).
  rewrite map_nth, seq_nth by assumption. reflexivity.
Qed.

(** On a table whose rows are consecutive calendar days, the value the
    analyzer accumulates at a row is the sum of the precipitation over
    the [k] days strictly preceding the row's date (the date itself
    excluded), and is undefined where that window is incomplete. *)
Lemma chuva_acumulada_dias_consecutivos
    (df : App.DataFrame) (d0 k : Z) (i : nat) :
  map Data df = py_range d0 (d0 + Z.of_nat (length df)) ->
  1 <= k -> (i < length df)%nat ->
  nth i (App.chuva_acumulada df k) NaN
  = soma_dias_anteriores df k (d0 + Z.of_nat i).
Proof.
  intros Hd Hk Hi. unfold App.chuva_acumulada, rolling_sum, shift.
  set (p := map Precipitacao_mm df).
  assert (Hlp : length p = length df) by (unfold p; apply length_map).
  assert (Hls : length (firstn (length p) (repeat NaN 1 ++ p)) = length p).
  { rewrite length_firstn. cbn [repeat app length]. lia. }
  rewrite Hls, nth_map_seq by lia.
  unfold janela. rewrite firstn_firstn.
  replace (Nat.min (S i) (length p)) with (S i) by lia.
  cbn [repeat app firstn].
  unfold soma_dias_anteriores.
  destruct (Nat.ltb_spec i (Z.to_nat k)) as [Hlt|Hge].
  - (* the window starts before the first row *)
    replace (S i - Z.to_nat k)%nat with 0%nat by lia. cbn [skipn].
    change (validos (NaN :: firstn i p)) with (validos (firstn i p)).
    pose proof (validos_length_le (firstn i p)) as Hv.
    rewrite length_firstn in Hv.
    destruct (Nat.leb_spec (Z.to_nat k) (length (validos (firstn i p))))
      as [Hle|_]; [lia|].
    rewrite py_range_cons by lia. cbn [map forallb].
    rewrite chuva_no_dia_fora; [reflexivity|].
    rewrite Hd, py_range_In. lia.
  - (* the window lies inside the table *)
    set (w := Z.to_nat k) in *. set (a := (i - w)%nat).
    replace (S i - w)%nat with (S a) by lia. cbn [skipn].
    assert (Hjan : skipn a (firstn i p)
                   = map (fun j => nth (a + j) p NaN) (seq 0 w)).
    { replace i with (a + w)%nat by lia. apply skipn_firstn_nth. lia. }
    rewrite Hjan.
    assert (Hcells :
      map (chuva_no_dia df) (py_range (d0 + Z.of_nat i - k) (d0 + Z.of_nat i))
      = map (fun j => nth (a + j) p NaN) (seq 0 w)).
    { unfold py_range. replace (Z.to_nat (d0 + Z.of_nat i - (d0 + Z.of_nat i - k)))
        with w by lia.
      rewrite map_map. apply map_ext_in. intros j Hj. apply in_seq in Hj.
      replace (d0 + Z.of_nat i - k + Z.of_nat j)
        with (d0 + Z.of_nat (a + j)) by lia.
      apply chuva_no_dia_consecutivo; [assumption|lia]. }
    rewrite Hcells.
    set (cells := map (fun j => nth (a + j) p NaN) (seq 0 w)).
    assert (Hlc : length cells = w)
      by (unfold cells; now rewrite length_map, length_seq).
    rewrite <- (validos_completo cells), Hlc. reflexivity.
Qed.

(** ** The claims on concrete tables *)

Open Scope string_scope.

(** The whole batch script on four river rows and three rainfall rows:
    the reading "abc m" is left out of the mean of 2024-04-30 (1.5, not
    1.0), and 2024-05-02, after the last rainfall row, gets 0 mm. *)
Example consolidar_exemplo :
  Processamento.consolidar Casos.rio_exemplo Casos.clima_exemplo
  = Ok [ mkLinha 19843 (Some (30000 # 20000)) (Some 0%Q);
         mkLinha 19845 (Some (300 # 100)) (Some 0%Q) ].
Proof. vm_compute. reflexivity. Qed.

(** The analyzer on six consecutive days: lag 2 wins. *)
Example calcular_exemplo :
  App.calcular_correlacao_com_lag Casos.df_exemplo 3
  = Some (App.mkResultado 2 (Some (9 # 35))
            [(1, Some (-2 # 37)); (2, Some (9 # 35)); (3, Some (-3 # 28))]).
Proof. vm_compute. reflexivity. Qed.

(** A non-positive bound leaves the loop empty: no result. *)
Example calcular_sem_lags :
  App.calcular_correlacao_com_lag Casos.df_exemplo 0 = None.
Proof. vm_compute. reflexivity. Qed.

(** C1, the accumulated driver on a table with a gap in its dates. The
    table holds the days 1, 2 and 5. For lag 1 the analyzer pairs day 5
    with the precipitation of day 2, the previous row, although the day
    that precedes day 5 is day 4, which the table does not hold: the sum
    over the one day strictly preceding day 5 is undefined. *)
Theorem chuva_acumulada_ignora_lacuna :
  map Data Casos.df_lacuna = [1; 2; 5] /\
  map Precipitacao_mm Casos.df_lacuna = [Some 3; Some 7; Some 1]%Q /\
  App.chuva_acumulada Casos.df_lacuna 1 = [NaN; Some 3; Some 7]%Q /\
  chuva_no_dia Casos.df_lacuna 4 = NaN /\
  soma_dias_anteriores Casos.df_lacuna 1 5 = NaN.
Proof.
  repeat split; vm_compute; reflexivity.
Qed.

Lemma melhor_lag_maximo_e_menor_witness :
  exists c,
    App.melhor_corr Casos.resultado_exemplo = Some c /\
    In (App.melhor_lag Casos.resultado_exemplo, Some c)
       (App.correlacoes Casos.resultado_exemplo) /\
    forall k v, In (k, v) (App.correlacoes Casos.resultado_exemplo) ->
      exists q, v = Some q /\ (q <= c)%Q /\
                ((q == c)%Q -> App.melhor_lag Casos.resultado_exemplo <= k).
Proof.
  apply (melhor_lag_maximo_e_menor Casos.df_exemplo 3 Casos.resultado_exemplo).
  vm_compute. reflexivity.
Defined.

Lemma apenas_coeficientes_definidos_witness :
  (Some (9 # 35)
   = corr (map Nivel_m Casos.df_exemplo) (App.chuva_acumulada Casos.df_exemplo 2)
   /\ notna (Some (9 # 35)) = true) /\
  App.calcular_correlacao_com_lag Casos.df_constante 3 = None.
Proof.
  split.
  - apply (proj1 (apenas_coeficientes_definidos Casos.df_exemplo 3)
                 Casos.resultado_exemplo 2 (Some (9 # 35))).
    + vm_compute. reflexivity.
    + vm_compute. auto.
  - apply (proj2 (apenas_coeficientes_definidos Casos.df_constante 3)).
    intros k Hk.
    assert (Hcases : k = 1 \/ k = 2 \/ k = 3) by lia.
    destruct Hcases as [ -> | [ -> | -> ] ]; vm_compute; reflexivity.
Defined.

Lemma lags_entre_1_e_max_lag_witness : 1 <= 2 <= 3.
Proof.
  apply (lags_entre_1_e_max_lag Casos.df_exemplo 3 Casos.resultado_exemplo
                                2 (Some (9 # 35))).
  - vm_compute. reflexivity.
  - vm_compute. auto.
Defined.

Lemma df_final_sem_campos_ausentes_witness :
  (exists n p, Some 1%Q = Some n /\ Some 5%Q = Some p) /\
  In (mkLinha 11 (Some 2%Q) (Some 0%Q))
     (Processamento.df_final Casos.rio_diario_exemplo
                             Casos.clima_diario_exemplo) /\
  In (10, Some 1%Q) Casos.rio_diario_exemplo.
Proof.
  pose proof (df_final_sem_campos_ausentes Casos.rio_diario_exemplo
                Casos.clima_diario_exemplo) as [H1 [H2 H3]].
  split; [|split].
  - apply (H1 (mkLinha 10 (Some 1%Q) (Some 5%Q))). vm_compute. auto.
  - apply (H2 11 2%Q).
    + vm_compute. auto.
    + intros m [<-|[]]. vm_compute. discriminate.
  - apply (H3 (mkLinha 10 (Some 1%Q) (Some 5%Q))). vm_compute. auto.
Defined.

Lemma media_diaria_do_rio_witness :
  exists s, Processamento.df_rio_diario Casos.rio_exemplo = Ok s /\
    (forall d v, In (d, v) s <->
       let qs := flat_map (fun o => match snd o with
                                    | Some q =>
                                        if (fst o / 86400 =? d)%Z then [q] else []
                                    | None => []
                                    end) Casos.obs_rio_exemplo in
       (exists t q, In (t, Some q) Casos.obs_rio_exemplo /\ (t / 86400 = d)%Z) /\
       v = Some (fold_right Qplus 0%Q qs
                 / inject_Z (Z.of_nat (length qs)))%Q) /\
    (forall d, (forall t q, In (t, Some q) Casos.obs_rio_exemplo ->
                            (t / 86400 <> d)%Z) ->
               ~ In d (map fst s)).
Proof.
  apply (media_diaria_do_rio Casos.rio_exemplo Casos.obs_rio_exemplo).
  vm_compute. reflexivity.
Defined.



(** C5, the claim as worded fails: the first river row has a timestamp
    that parses, the second has not, and the parse raises instead of
    returning the first row. *)
Lemma timestamp_invalido_nao_descarta :
  strptime "%d/%m/%Y %H:%M" "30/04/2024 13:15" = Some 1714482900 /\
  strptime "%d/%m/%Y %H:%M" "30-04-2024 13:30" = None /\
  Processamento.df_rio Casos.rio_data_invalida = Erro ValueError.
Proof.
  repeat split; vm_compute; reflexivity.
Qed.

Lemma timestamp_invalido_interrompe_witness :
  Bruto.df_rio (Bruto.RioObjeto CasosBruto.rio_malformado) = Erro ValueError /\
  (exists obs, Bruto.df_rio (Bruto.RioObjeto CasosBruto.rio) = Ok obs) /\
  Forall2 (fun r o => instante_de "%d/%m/%Y %H:%M" (fst r) (fst o))
          CasosBruto.rio CasosBruto.obs_rio /\
  Bruto.df_nivel CasosBruto.nivel_malformado = Erro ValueError /\
  Bruto.df_clima (Bruto.ClimaNumerico CasosBruto.clima_numerico_malformado)
  = Erro ValueError /\
  (exists obs, Bruto.df_clima (Bruto.ClimaObjeto CasosBruto.clima) = Ok obs) /\
  Forall2 (fun r o => instante_de "%Y/%m/%d %H:%M" (fst r) (fst o))
          CasosBruto.clima CasosBruto.obs_clima /\
  Bruto.df_clima (Bruto.ClimaNumerico CasosBruto.clima_numerico)
  = Erro AttributeError.
Proof.
  pose proof timestamp_invalido_interrompe
    as [Hrio [Hnivel [Hc1 [Hc2 [Hc3 [_ [_ Hc4]]]]]]].
  assert (Hnao : forall fmt (c : Bruto.celula),
            Bruto.to_datetime_celula fmt c <> Erro ValueError ->
            ~ malformado fmt c).
  { intros fmt c Hne [s [-> [Hn Hp]]]. apply Hne.
    unfold Bruto.to_datetime_celula. now rewrite Hn, Hp. }
  split; [|split; [|split; [|split; [|split; [|split; [|split]]]]]].
  - apply (proj1 (Hrio CasosBruto.rio_malformado)).
    exists (Some "30-04-2024 13:30", Some "1,30 m"). split.
    + vm_compute. auto.
    + exists "30-04-2024 13:30". repeat split; vm_compute; reflexivity.
  - apply (proj1 (proj2 (Hrio CasosBruto.rio))).
    intros r Hin. apply Hnao. cbn in Hin.
    destruct Hin as [<-|[<-|[<-|[<-|[]]]]]; vm_compute; discriminate.
  - apply (proj2 (proj2 (Hrio CasosBruto.rio))). vm_compute. reflexivity.
  - apply (proj1 (Hnivel CasosBruto.nivel_malformado)).
    exists (Bruto.mkLinhaNivel (Some "2024-04-30") (Some "11:00:00")
                               (Bruto.Texto "160")).
    split.
    + vm_compute. auto.
    + exists "2024-04-30 11:00:00". repeat split; vm_compute; reflexivity.
  - apply Hc1. exists (Some "29/04/2024 02:00"). split.
    + vm_compute. auto.
    + exists "29/04/2024 02:00". repeat split; vm_compute; reflexivity.
  - apply (proj1 (Hc2 CasosBruto.clima)). split.
    + intros r Hin. apply Hnao. cbn in Hin.
      destruct Hin as [<-|[<-|[<-|[]]]]; vm_compute; discriminate.
    + intros r s Hin Hs. cbn in Hin.
      destruct Hin as [<-|[<-|[<-|[]]]]; cbn in Hs; inversion Hs; subst;
        vm_compute; discriminate.
  - apply (Hc3 CasosBruto.clima). vm_compute. reflexivity.
  - apply (Hc4 CasosBruto.clima_numerico).
    intros r Hin. apply Hnao. cbn in Hin.
    destruct Hin as [<-|[<-|[]]]; vm_compute; discriminate.
Defined.

(** The timestamps of the two tables above once parsed: the null cell
    and the word "NaT" are under NaT, in their rows; and a measurement
    column read as numbers stops the river parse. *)
Example celulas_ausentes_sob_NaT :
  Bruto.df_rio (Bruto.RioObjeto CasosBruto.rio) = Ok CasosBruto.obs_rio /\
  map fst CasosBruto.obs_rio
  = [Some 1714482900; None; None; Some 1714484700] /\
  Bruto.df_clima (Bruto.ClimaObjeto CasosBruto.clima) = Ok CasosBruto.obs_clima /\
  map fst CasosBruto.obs_clima = [Some 1714352400; None; Some 1714521600] /\
  Bruto.df_rio (Bruto.RioNumerico [(Some "30/04/2024 13:15", Some 1%Q)])
  = Erro AttributeError.
Proof.
  repeat split; vm_compute; reflexivity.
Qed.

(** C6, the claim as worded fails: the rainfall value "x" of an API
    record is not a number, and the parsed observation holds the number
    zero. *)
Lemma chuva_invalida_vira_zero :
  str_to_float (ProcessData.CHUVA Casos.chuva_invalida) = None /\
  exists t, ProcessData.df_chuva [Casos.chuva_invalida] = Ok [(t, Some 0%Q)].
Proof.
  split; [vm_compute; reflexivity|].
  eexists. vm_compute. reflexivity.
Qed.

Lemma valor_invalido_por_caminho_witness :
  (exists t, nth_error Casos.obs_rio_exemplo 1 = Some (t, NaN)) /\
  (exists t, nth_error Casos.obs_nivel_exemplo 1 = Some (t, NaN)) /\
  (exists t, nth_error Casos.obs_chuva_invalida 0 = Some (t, Some 0%Q)) /\
  Processamento.df_clima Casos.clima_valor_invalido = Erro ValueError.
Proof.
  pose proof valor_invalido_por_caminho as [H1 [H2 [H3 H4]]].
  split; [|split; [|split]].
  - apply (H1 Casos.rio_exemplo Casos.obs_rio_exemplo 1%nat
              ("30/04/2024 13:30", "abc m")); vm_compute; reflexivity.
  - apply (H2 Casos.nivel_exemplo Casos.obs_nivel_exemplo 1%nat
              Casos.nivel_invalido); vm_compute; reflexivity.
  - apply (H3 [Casos.chuva_invalida] Casos.obs_chuva_invalida 0%nat
              Casos.chuva_invalida); vm_compute; reflexivity.
  - apply H4. exists ("2024/04/29 02:00", "x"). split.
    + vm_compute. auto.
    + vm_compute. reflexivity.
Defined.

(* ================================================================== *)
(** * Further properties of the code *)
(* ================================================================== *)

Close Scope string_scope.

(** ** The accumulated rainfall, row by row *)

Lemma janela_deslocada (w i : nat) (p : list float) :
  (i < length p)%nat ->
  janela w i (shift 1 p) = skipn (S i - w) (NaN :: firstn i p).
Proof.
  intros Hi. unfold janela, shift. rewrite firstn_firstn.
  replace (Nat.min (S i) (length p)) with (S i) by lia.
  reflexivity.
Qed.

Lemma chuva_acumulada_length (df : App.DataFrame) (k : Z) :
  length (App.chuva_acumulada df k) = length df.
Proof.
  unfold App.chuva_acumulada, rolling_sum, shift.
  rewrite length_map, length_seq, length_firstn, length_app, length_map.
  cbn [repeat length]. lia.
Qed.

(** The cell at row [i]: the window is cut out of the rows before [i]. *)
Lemma chuva_acumulada_posicional (df : App.DataFrame) (k : Z) (i : nat) :
  (i < length df)%nat ->
  nth i (App.chuva_acumulada df k) NaN
  = (let obs := validos (skipn (S i - Z.to_nat k)
                           (NaN :: firstn i (map Precipitacao_mm df))) in
     if (Z.to_nat k <=? length obs)%nat then Some (Qsum obs) else NaN).
Proof.
  intros Hi. unfold App.chuva_acumulada, rolling_sum.
  set (p := map Precipitacao_mm df).
  assert (Hlp : length p = length df) by (unfold p; apply length_map).
  assert (Hls : length (shift 1 p) = length p).
  { unfold shift. rewrite length_firstn, length_app. cbn [repeat length]. lia. }
  rewrite Hls, nth_map_seq by lia.
  rewrite janela_deslocada by lia. reflexivity.
Qed.

(** X1. The accumulated value of a row is computed from the rows before it
    only: two tables that agree on the precipitation of their first [i]
    rows have the same accumulated value at row [i], whatever today's or
    later rainfall is. *)
Theorem chuva_acumulada_so_linhas_anteriores
    (df df' : App.DataFrame) (k : Z) (i : nat) :
  (i < length df)%nat -> (i < length df')%nat ->
  firstn i (map Precipitacao_mm df) = firstn i (map Precipitacao_mm df') ->
  nth i (App.chuva_acumulada df k) NaN = nth i (App.chuva_acumulada df' k) NaN.
Proof.
  intros Hi Hi' Heq.
  rewrite !chuva_acumulada_posicional by assumption.
  now rewrite Heq.
Qed.

Lemma celula_inicial_nan (df : App.DataFrame) (k : Z) (i : nat) :
  1 <= k -> (i < length df)%nat -> (Z.of_nat i < k) ->
  nth i (App.chuva_acumulada df k) NaN = NaN.
Proof.
  intros Hk Hi Hlt.
  rewrite chuva_acumulada_posicional by assumption. cbv zeta.
  replace (S i - Z.to_nat k)%nat with 0%nat by lia. cbn [skipn].
  change (validos (NaN :: firstn i (map Precipitacao_mm df)))
    with (validos (firstn i (map Precipitacao_mm df))).
  pose proof (validos_length_le (firstn i (map Precipitacao_mm df))) as Hv.
  rewrite length_firstn in Hv.
  destruct (Nat.leb_spec (Z.to_nat k)
              (length (validos (firstn i (map Precipitacao_mm df)))))
    as [Hle|_]; [lia|reflexivity].
Qed.

(** X2. The accumulated series has one cell per row, and for a lag of at
    least 1 its first [lag] cells are NaN: a row enters a lag's
    correlation only if [lag] rows precede it. *)
Theorem chuva_acumulada_inicio_indefinido
    (df : App.DataFrame) (k : Z) (i : nat) :
  1 <= k -> (i < length df)%nat -> (Z.of_nat i < k) ->
  length (App.chuva_acumulada df k) = length df /\
  nth i (App.chuva_acumulada df k) NaN = NaN.
Proof.
  intros Hk Hi Hlt. split; [apply chuva_acumulada_length|].
  now apply celula_inicial_nan.
Qed.

Lemma pares_validos_sem_valor (a b : list float) :
  (forall x, In x b -> x = NaN) -> pares_validos a b = [].
Proof.
  revert b. induction a as [|x a IH]; intros [|y b] Hb; try reflexivity.
  cbn [pares_validos]. rewrite (Hb y) by now left.
  unfold NaN. destruct x; apply IH; intros z Hz; apply Hb; now right.
Qed.

Lemma In_nth_lt {A : Type} (l : list A) (x d : A) :
  In x l -> exists i, (i < length l)%nat /\ nth i l d = x.
Proof.
  intros Hin. destruct (In_nth l x d Hin) as [i [Hi Hn]]. eauto.
Qed.

Section LimiteDeLinhas.

Context `{Biblioteca}.

Lemma coef_sem_linhas_bastantes (df : App.DataFrame) (k : Z) :
  1 <= k -> Z.of_nat (length df) <= k -> coef df k = NaN.
Proof.
  intros Hk Hn. unfold coef, corr.
  rewrite pares_validos_sem_valor; [reflexivity|].
  intros x Hx. destruct (In_nth_lt _ x NaN Hx) as [i [Hi <-]].
  rewrite chuva_acumulada_length in Hi.
  apply celula_inicial_nan; lia.
Qed.

(** X3. A lag of the result is smaller than the number of rows of the
    table, whatever [max_lag] is; a table with at most one row gives no
    result. *)
Theorem lag_menor_que_linhas (df : App.DataFrame) (max_lag : Z) :
  (forall r k v,
     App.calcular_correlacao_com_lag df max_lag = Some r ->
     In (k, v) (App.correlacoes r) -> k < Z.of_nat (length df)) /\
  ((length df <= 1)%nat ->
   App.calcular_correlacao_com_lag df max_lag = None).
Proof.
  assert (Hlim : forall k v, In (k, v) (App.laco df max_lag) ->
                             k < Z.of_nat (length df)).
  { intros k v Hin. apply laco_In in Hin as [Hk [Hv Hn]].
    destruct (Z.lt_ge_cases k (Z.of_nat (length df))) as [Hlt|Hge];
      [assumption|].
    rewrite (coef_sem_linhas_bastantes df k) in Hv by lia.
    subst v. discriminate. }
  split.
  - intros r k v Hr Hin. apply calcular_Some in Hr as [Hd _].
    rewrite Hd in Hin. now apply Hlim with (v := v).
  - intros Hlen. apply calcular_None.
    remember (App.laco df max_lag) as d eqn:Hd.
    destruct d as [|[k v] d]; [reflexivity|].
    pose proof (Hlim k v (or_introl eq_refl)) as Hlt.
    assert (Hin : In (k, v) (App.laco df max_lag)) by (rewrite <- Hd; now left).
    apply laco_In in Hin as [Hk _]. lia.
Qed.

End LimiteDeLinhas.

(** ** The result of the analyzer as a whole *)

Lemma py_range_app (lo mid hi : Z) :
  lo <= mid <= hi -> py_range lo hi = py_range lo mid ++ py_range mid hi.
Proof.
  intros Hm. remember (Z.to_nat (mid - lo)) as n eqn:Hn.
  revert lo Hm Hn. induction n as [|n IH]; intros lo Hm Hn.
  - replace mid with lo by lia. now rewrite (py_range_nil lo lo) by lia.
  - rewrite (py_range_cons lo hi), (py_range_cons lo mid) by lia.
    cbn [app]. f_equal. apply IH; lia.
Qed.

Lemma dict_get_fora (d : dict) (k : Z) :
  ~ In k (dict_keys d) -> dict_get d k = None.
Proof.
  induction d as [|[k' v'] d IH]; cbn; intros Hk; [reflexivity|].
  destruct (Z.eqb_spec k' k) as [->|_]; [exfalso; apply Hk; now left|].
  apply IH. intros Hin. apply Hk. now right.
Qed.

Lemma fold_left_ext_fun {A B : Type} (f g : A -> B -> A) (l : list B) (a : A) :
  (forall x y, f x y = g x y) -> fold_left f l a = fold_left g l a.
Proof.
  intros Hfg. revert a. induction l as [|y l IH]; intros a; cbn;
    [reflexivity|]. now rewrite Hfg, IH.
Qed.

Section ResultadoCompleto.

Context `{Biblioteca}.

Lemma laco_nao_vazio (df : App.DataFrame) (max_lag : Z) :
  App.laco df max_lag <> [] ->
  exists r, App.calcular_correlacao_com_lag df max_lag = Some r.
Proof.
  intros Hne.
  destruct (App.calcular_correlacao_com_lag df max_lag) as [r|] eqn:Hr;
    [now exists r|].
  apply calcular_None in Hr. contradiction.
Qed.

(** The best coefficient is an entry of the dict and bounds every entry. *)
Lemma resultado_maximo (df : App.DataFrame) (max_lag : Z) (r : App.Resultado) :
  App.calcular_correlacao_com_lag df max_lag = Some r ->
  exists c,
    App.melhor_corr r = Some c /\
    In (App.melhor_lag r, Some c) (App.laco df max_lag) /\
    forall k q, In (k, Some q) (App.laco df max_lag) -> (q <= c)%Q.
Proof.
  intros Hr. apply calcular_Some in Hr as [_ [Hc [k0 [ks [Hks Hm]]]]].
  rewrite Hc. clear Hc.
  set (d := App.laco df max_lag) in *.
  assert (Hnd : NoDup (dict_keys d))
    by (apply crescente_NoDup, laco_crescente).
  assert (Hval : forall k v, In (k, v) d -> dict_item d k = v /\ notna v = true).
  { intros k v Hin. split; [now apply dict_item_In|].
    now apply (laco_In df max_lag k v). }
  destruct (max_desde_primeiro (dict_item d) ks [] [] k0)
    as [pre [post [Hsplit [Hpre Hpost]]]].
  - intros k Hk. change (In k (k0 :: ks)) in Hk. rewrite <- Hks in Hk.
    apply chave_tem_valor in Hk as [v Hin].
    destruct (Hval k v Hin) as [-> Hn]. exact Hn.
  - intros x [].
  - intros x [].
  - cbn [app] in Hsplit. rewrite <- Hks, <- Hm in Hsplit.
    rewrite <- Hm in Hpre, Hpost.
    set (m := App.melhor_lag r) in *.
    assert (Hmin : In m (dict_keys d)).
    { rewrite Hsplit. apply in_or_app. right. now left. }
    apply chave_tem_valor in Hmin as [vm Hmin].
    destruct (Hval m vm Hmin) as [Hvm Hnm].
    destruct vm as [c|]; [|discriminate].
    exists c. split; [assumption|]. split; [assumption|].
    intros k q Hin. destruct (Hval k _ Hin) as [Hv _].
    assert (Hk : In k (dict_keys d))
      by (unfold dict_keys; apply in_map_iff; now exists (k, Some q)).
    rewrite Hsplit in Hk. apply in_app_or in Hk as [Hk|[Hk|Hk]].
    + specialize (Hpre k Hk). rewrite Hv, Hvm in Hpre. cbn in Hpre.
      now apply Qlt_le_weak.
    + subst k. assert (Hqc : Some q = Some c) by congruence.
      inversion Hqc; subst. apply Qle_refl.
    + specialize (Hpost k Hk). rewrite Hv, Hvm in Hpost. exact Hpost.
Qed.

(** X4. Looking a lag up in the returned dict gives its coefficient when
    the lag lies in 1..max_lag and the coefficient is not NaN, and
    nothing otherwise; the keys are in strictly increasing order. *)
Theorem correlacoes_exatas
    (df : App.DataFrame) (max_lag : Z) (r : App.Resultado) :
  App.calcular_correlacao_com_lag df max_lag = Some r ->
  crescente (dict_keys (App.correlacoes r)) /\
  forall k,
    dict_get (App.correlacoes r) k
    = if (1 <=? k) && (k <=? max_lag) && notna (coef df k)
      then Some (coef df k) else None.
Proof.
  intros Hr. apply calcular_Some in Hr as [Hd _]. rewrite Hd.
  split; [apply laco_crescente|]. intros k.
  assert (Hnd : NoDup (dict_keys (App.laco df max_lag)))
    by (apply crescente_NoDup, laco_crescente).
  destruct ((1 <=? k) && (k <=? max_lag) && notna (coef df k)) eqn:Hc.
  - apply andb_true_iff in Hc as [Hc Hn]. apply andb_true_iff in Hc as [H1 H2].
    apply dict_get_In; [assumption|]. apply laco_In. repeat split; try lia.
    assumption.
  - apply dict_get_fora. intros Hin. apply chave_tem_valor in Hin as [v Hin].
    apply laco_In in Hin as [Hk [-> Hn]].
    replace (1 <=? k) with true in Hc by (symmetry; apply Z.leb_le; lia).
    replace (k <=? max_lag) with true in Hc by (symmetry; apply Z.leb_le; lia).
    cbn in Hc. congruence.
Qed.

Lemma calcular_None_coef (df : App.DataFrame) (max_lag : Z) :
  App.calcular_correlacao_com_lag df max_lag = None <->
  forall k, 1 <= k <= max_lag -> notna (coef df k) = false.
Proof.
  rewrite calcular_None. split.
  - intros Hd k Hk. destruct (notna (coef df k)) eqn:Hn; [|reflexivity].
    assert (Hin : In (k, coef df k) (App.laco df max_lag))
      by (apply laco_In; auto).
    rewrite Hd in Hin. contradiction.
  - intros Hnan. destruct (App.laco df max_lag) as [|[k v] d] eqn:Hd;
      [reflexivity|].
    assert (Hin : In (k, v) (App.laco df max_lag)) by (rewrite Hd; now left).
    apply laco_In in Hin as [Hk [-> Hn]]. rewrite Hnan in Hn by assumption.
    discriminate.
Qed.

(** X5. The analyzer returns the no-result triple exactly when every lag
    of 1..max_lag has a NaN coefficient; in particular for every
    [max_lag] below 1. *)
Theorem sem_resultado_sse (df : App.DataFrame) (max_lag : Z) :
  (App.calcular_correlacao_com_lag df max_lag = None <->
   forall k, 1 <= k <= max_lag -> notna (coef df k) = false) /\
  (max_lag < 1 -> App.calcular_correlacao_com_lag df max_lag = None).
Proof.
  split; [apply calcular_None_coef|].
  intros Hlt. apply calcular_None_coef. intros k Hk. lia.
Qed.

(** X6. Enlarging [max_lag] keeps every entry already found, in place, and
    never lowers the best coefficient. *)
Theorem mais_lags_nao_piora
    (df : App.DataFrame) (m m' : Z) (r : App.Resultado) :
  0 <= m <= m' ->
  App.calcular_correlacao_com_lag df m = Some r ->
  exists r' novos,
    App.calcular_correlacao_com_lag df m' = Some r' /\
    App.correlacoes r' = App.correlacoes r ++ novos /\
    fle (App.melhor_corr r) (App.melhor_corr r').
Proof.
  intros Hm Hr.
  assert (Hsplit : App.laco df m'
                   = App.laco df m ++ flat_map (entrada df) (py_range (m + 1) (m' + 1))).
  { rewrite !laco_flat_map, (py_range_app 1 (m + 1) (m' + 1)) by lia.
    apply flat_map_app. }
  destruct (resultado_maximo df m r Hr) as [c [Hc [Hin _]]].
  destruct (laco_nao_vazio df m') as [r' Hr'].
  { rewrite Hsplit. intros Hnil. apply app_eq_nil in Hnil as [Hnil _].
    rewrite Hnil in Hin. contradiction. }
  exists r', (flat_map (entrada df) (py_range (m + 1) (m' + 1))).
  split; [assumption|].
  destruct (resultado_maximo df m' r' Hr') as [c' [Hc' [_ Hmax]]].
  apply calcular_Some in Hr as [Hd _]. apply calcular_Some in Hr' as [Hd' _].
  split; [now rewrite Hd, Hd'|].
  rewrite Hc, Hc'. cbn. apply (Hmax (App.melhor_lag r)).
  rewrite Hsplit. apply in_or_app. now left.
Qed.

(** X7. The analyzer reads the two value columns only: tables with the
    same river levels and the same precipitation, row by row, get the
    same result whatever their dates are. *)
Theorem calcular_ignora_datas (df df' : App.DataFrame) (max_lag : Z) :
  map Nivel_m df = map Nivel_m df' ->
  map Precipitacao_mm df = map Precipitacao_mm df' ->
  App.calcular_correlacao_com_lag df max_lag
  = App.calcular_correlacao_com_lag df' max_lag.
Proof.
  intros Hn Hp.
  assert (Hl : App.laco df max_lag = App.laco df' max_lag).
  { unfold App.laco. apply fold_left_ext_fun. intros d k.
    unfold App.passo, App.chuva_acumulada. now rewrite Hn, Hp. }
  unfold App.calcular_correlacao_com_lag. now rewrite Hl.
Qed.

(** X8. The coefficient shown is the coefficient of the lag shown: the
    best lag lies in 1..max_lag, and the best coefficient is the
    correlation of the river level with the very column the scatter plot
    draws for that lag; it is not NaN. *)
Theorem grafico_mostra_o_melhor_lag
    (df : App.DataFrame) (max_lag : Z) (r : App.Resultado) :
  App.calcular_correlacao_com_lag df max_lag = Some r ->
  1 <= App.melhor_lag r <= max_lag /\
  App.melhor_corr r
  = corr (map Nivel_m df) (Painel.Chuva_Acumulada df (App.melhor_lag r)) /\
  notna (App.melhor_corr r) = true.
Proof.
  intros Hr. destruct (resultado_maximo df max_lag r Hr) as [c [Hc [Hin _]]].
  apply laco_In in Hin as [Hk [Hv Hn]]. rewrite Hc.
  repeat split; try lia; assumption.
Qed.

(** X9. The page shows the success branch exactly when some lag of 1..15
    has a coefficient that is not NaN; a best lag is never 0, so the
    truth test on it cannot hide a result. *)
Theorem exibe_resultado_sse (df_corr : App.DataFrame) :
  (Painel.exibe_resultado df_corr = true <->
   exists k, 1 <= k <= 15 /\ notna (coef df_corr k) = true) /\
  (Painel.exibe_resultado df_corr = false <-> Painel.analise df_corr = None).
Proof.
  unfold Painel.exibe_resultado, Painel.analise.
  destruct (App.calcular_correlacao_com_lag df_corr 15) as [r|] eqn:Hr.
  - destruct (resultado_maximo df_corr 15 r Hr) as [c [Hc [Hin _]]].
    apply laco_In in Hin as [Hk [Hv Hn]].
    replace (App.melhor_lag r =? 0) with false
      by (symmetry; apply Z.eqb_neq; lia).
    cbn [negb]. split; split; try discriminate.
    + intros _. exists (App.melhor_lag r). split; [assumption|].
      now rewrite <- Hv.
    + reflexivity.
  - split; split; try reflexivity; try discriminate.
    intros [k [Hk Hn]].
    rewrite (proj1 (calcular_None_coef df_corr 15) Hr) in Hn by assumption.
    discriminate.
Qed.

End ResultadoCompleto.

(** ** Daily aggregation keeps every value and every order *)








Lemma crescente_filter_chaves (P : Z * float -> bool) (s : Serie) :
  crescente (map fst s) -> crescente (map fst (filter P s)).
Proof.
  induction s as [|o s IH]; cbn; intros Hs; [constructor|].
  inversion Hs as [|x l Hlt Hs']; subst.
  destruct (P o); cbn; [|now apply IH]. constructor; [|now apply IH].
  intros y Hy. apply Hlt. apply in_map_iff in Hy as [o' [<- Ho']].
  apply filter_In in Ho' as [Ho' _]. now apply in_map.
Qed.

Lemma dias_cobertos_crescente (obs : Serie) : crescente (dias_cobertos obs).
Proof.
  unfold dias_cobertos. destruct obs as [|[t v] r]; [constructor|].
  apply py_range_crescente.
Qed.

Lemma resample_sum_dias (obs : Serie) :
  map fst (resample_sum obs) = dias_cobertos obs.
Proof.
  unfold resample_sum. rewrite map_map. cbn [fst]. apply map_id.
Qed.

Lemma resample_mean_dias (obs : Serie) :
  map fst (resample_mean obs) = dias_cobertos obs.
Proof.
  unfold resample_mean. rewrite map_map. cbn [fst]. apply map_id.
Qed.


Section Agregacao.

Context `{Biblioteca}.


(** X11. Both daily series are indexed by strictly increasing days, so no
    day occurs twice. *)
Theorem series_diarias_crescentes :
  (forall rows s, Processamento.df_rio_diario rows = Ok s ->
                  crescente (map fst s)) /\
  (forall rows s, Processamento.df_clima_diario rows = Ok s ->
                  crescente (map fst s)).
Proof.
  split; intros rows s.
  - unfold Processamento.df_rio_diario.
    destruct (Processamento.df_rio rows) as [obs|e]; cbn; [|discriminate].
    intros Heq. inversion Heq; subst. unfold dropna.
    apply crescente_filter_chaves. rewrite resample_mean_dias.
    apply dias_cobertos_crescente.
  - unfold Processamento.df_clima_diario.
    destruct (Processamento.df_clima rows) as [obs|e]; cbn; [|discriminate].
    intros Heq. inversion Heq; subst. rewrite resample_sum_dias.
    apply dias_cobertos_crescente.
Qed.

End Agregacao.

(** ** The batch script from the raw rows to the table *)

Lemma filter_chave_unica (c : Serie) (d : Z) :
  NoDup (map fst c) ->
  filter (fun m => fst m =? d) c = [] \/
  exists m, filter (fun m => fst m =? d) c = [m].
Proof.
  induction c as [|o c IH]; cbn [map filter]; intros Hnd; [now left|].
  inversion Hnd as [|? ? Hnotin Hnd']; subst.
  destruct (Z.eqb_spec (fst o) d) as [Heq|Hne]; [|now apply IH].
  right. exists o. f_equal.
  destruct (filter (fun m => fst m =? d) c) as [|m ms] eqn:Hf; [reflexivity|].
  exfalso. apply Hnotin.
  assert (Hin : In m (filter (fun m => fst m =? d) c)) by (rewrite Hf; now left).
  apply filter_In in Hin as [Hin Hm]. apply Z.eqb_eq in Hm.
  rewrite Heq, <- Hm. now apply in_map.
Qed.

(** With unique days on the right, the left join adds one cell to each
    left row. *)
Lemma join_chaves_unicas (r c : Serie) :
  NoDup (map fst c) ->
  Processamento.join r c
  = map (fun l => mkLinha (fst l) (snd l) (ProcessData.valor_em (fst l) c)) r.
Proof.
  intros Hnd. unfold Processamento.join, ProcessData.valor_em.
  induction r as [|l r IH]; [reflexivity|].
  cbn [flat_map map].
  destruct (filter_chave_unica c (fst l) Hnd) as [->|[m ->]];
    cbn [map app]; f_equal; apply IH.
Qed.

Lemma df_final_uma_linha_por_dia (r c : Serie) :
  NoDup (map fst c) -> (forall o, In o r -> notna (snd o) = true) ->
  map Data (Processamento.df_final r c) = map fst r /\
  map Nivel_m (Processamento.df_final r c) = map snd r.
Proof.
  intros Hnd. unfold Processamento.df_final.
  rewrite (join_chaves_unicas r c Hnd).
  unfold Processamento.dropna_linhas, Processamento.preencher_chuva.
  induction r as [|[d v] r IH]; intros Hdef; [now split|].
  assert (Hv : notna v = true) by (apply (Hdef (d, v)); now left).
  destruct IH as [IH1 IH2]; [intros o Ho; apply Hdef; now right|].
  cbn [map filter Data Nivel_m Precipitacao_mm fst snd].
  rewrite Hv.
  replace (notna (fillna 0 (ProcessData.valor_em d c))) with true
    by now destruct (ProcessData.valor_em d c).
  cbn [andb map Data Nivel_m]. now rewrite IH1, IH2.
Qed.

Lemma dropna_definidos (s : Serie) :
  forall o, In o (dropna s) -> notna (snd o) = true.
Proof.
  intros o Ho. unfold dropna in Ho. now apply filter_In in Ho as [_ Hn].
Qed.

Section Consolidacao.

Context `{Biblioteca}.

(** X12. The consolidated table has exactly one row per day of the daily
    river series, in the same order and with the same level; its dates
    are therefore strictly increasing. *)
Theorem consolidar_uma_linha_por_dia
    (rio : list Processamento.LinhaRio) (clima : list Processamento.LinhaClima)
    (s c : Serie) :
  Processamento.df_rio_diario rio = Ok s ->
  Processamento.df_clima_diario clima = Ok c ->
  exists t, Processamento.consolidar rio clima = Ok t /\
    map Data t = map fst s /\
    map Nivel_m t = map snd s /\
    crescente (map Data t).
Proof.
  intros Hs Hc. exists (Processamento.df_final s c).
  assert (Hcs : crescente (map fst s) /\ (forall o, In o s -> notna (snd o) = true)).
  { unfold Processamento.df_rio_diario in Hs.
    destruct (Processamento.df_rio rio) as [obs|e]; cbn in Hs; [|discriminate].
    inversion Hs; subst. split; [|apply dropna_definidos].
    unfold dropna. apply crescente_filter_chaves.
    rewrite resample_mean_dias. apply dias_cobertos_crescente. }
  assert (Hcc : NoDup (map fst c)).
  { unfold Processamento.df_clima_diario in Hc.
    destruct (Processamento.df_clima clima) as [obs|e]; cbn in Hc; [|discriminate].
    inversion Hc; subst. rewrite resample_sum_dias.
    apply crescente_NoDup, dias_cobertos_crescente. }
  destruct Hcs as [Hcres Hdef].
  destruct (df_final_uma_linha_por_dia s c Hcc Hdef) as [Hd Hn].
  split; [|split; [|split]]; try assumption.
  - unfold Processamento.consolidar. now rewrite Hs, Hc.
  - now rewrite Hd.
Qed.

(** X13. What a row of the consolidated table holds. A day is in the table
    exactly when the parsed river table has a non-absent reading on it;
    its level is the mean of these readings (their sum over their
    number) and its precipitation the sum of the non-absent values the
    parsed rainfall table has on that day, which is 0 when it has
    none.  The day of a timestamp is its quotient by 86400 seconds. *)
Theorem consolidar_conteudo
    (rio : list Processamento.LinhaRio) (clima : list Processamento.LinhaClima)
    (obs_r obs_c : Serie) :
  Processamento.df_rio rio = Ok obs_r ->
  Processamento.df_clima clima = Ok obs_c ->
  exists t, Processamento.consolidar rio clima = Ok t /\
    forall d n p, In (mkLinha d n p) t <->
      let do_dia (obs : Serie) :=
        flat_map (fun o => match snd o with
                           | Some q => if fst o / 86400 =? d then [q] else []
                           | None => []
                           end) obs in
      (exists tm q, In (tm, Some q) obs_r /\ tm / 86400 = d) /\
      n = Some (fold_right Qplus 0%Q (do_dia obs_r)
                / inject_Z (Z.of_nat (length (do_dia obs_r))))%Q /\
      p = Some (fold_right Qplus 0%Q (do_dia obs_c)).
Proof.
  intros Hr Hc.
  exists (Processamento.df_final (dropna (resample_mean obs_r)) (resample_sum obs_c)).
  split.
  { unfold Processamento.consolidar, Processamento.df_rio_diario,
      Processamento.df_clima_diario. now rewrite Hr, Hc. }
  intros d n p. cbv zeta beta.
  rewrite <- !valores_do_dia_sobre_obs, <- valores_do_dia_nao_vazio.
  change (fold_right Qplus 0%Q (valores_do_dia d obs_r))
    with (Qsum (valores_do_dia d obs_r)).
  change (fold_right Qplus 0%Q (valores_do_dia d obs_c))
    with (Qsum (valores_do_dia d obs_c)).
  rewrite df_final_In. split.
  - intros [r0 [Hj [Heq Hn]]]. inversion Heq; subst. clear Heq.
    apply join_In in Hj as [[d' v] [Hl [Hd [Hv Hp]]]].
    cbn [fst snd] in *. rewrite Hd, Hv.
    apply media_diaria_In in Hl as [Hne ->]. split; [assumption|].
    split; [reflexivity|].
    destruct Hp as [[[d2 v2] [Hm [Hk ->]]]|[Hno ->]]; cbn [fst snd] in *.
    + subst d2. apply resample_sum_In in Hm as [_ ->]. reflexivity.
    + cbn. rewrite valores_do_dia_sem_obs; [reflexivity|].
      intros o Ho Hdia.
      apply (Hno (d', Some (Qsum (valores_do_dia d' obs_c)))); [|reflexivity].
      apply resample_sum_In. split; [|reflexivity].
      apply dias_cobertos_In. exists o, o. repeat split; try assumption; lia.
  - intros [Hne [-> ->]].
    set (media := Some (Qsum (valores_do_dia d obs_r)
                        / inject_Z (Z.of_nat (length (valores_do_dia d obs_r))))%Q).
    assert (Hl : In (d, media) (dropna (resample_mean obs_r)))
      by (apply media_diaria_In; now split).
    destruct (in_dec Z.eq_dec d (dias_cobertos obs_c)) as [Hin|Hout].
    + exists (mkLinha d media (Some (Qsum (valores_do_dia d obs_c)))).
      cbn. repeat split. apply join_In. exists (d, media). cbn.
      repeat split; try assumption. left.
      exists (d, Some (Qsum (valores_do_dia d obs_c))). cbn.
      repeat split. now apply resample_sum_In.
    + exists (mkLinha d media NaN). cbn. split; [|split; [|reflexivity]].
      * apply join_In. exists (d, media). cbn. repeat split; try assumption.
        right. split; [|reflexivity]. intros [d2 v2] Hm Hk. cbn in Hk. subst d2.
        apply resample_sum_In in Hm as [Hin _]. contradiction.
      * f_equal. rewrite valores_do_dia_sem_obs; [reflexivity|].
        intros o Ho Hdia. apply Hout. apply dias_cobertos_In.
        exists o, o. repeat split; try assumption; lia.
Qed.

End Consolidacao.

(** ** process_data.py: the merge, the forward fill and the final table *)

Lemma inserir_In (x k : Z) (l : list Z) :
  In k (ProcessData.inserir x l) <-> k = x \/ In k l.
Proof.
  induction l as [|y l IH]; cbn.
  - intuition.
  - destruct (Z.ltb_spec x y) as [Hlt|Hge]; cbn; [intuition|].
    destruct (Z.eqb_spec x y) as [->|Hne]; cbn; [intuition|].
    rewrite IH. intuition.
Qed.

Lemma chaves_ordenadas_In (k : Z) (l : list Z) :
  In k (ProcessData.chaves_ordenadas l) <-> In k l.
Proof.
  unfold ProcessData.chaves_ordenadas.
  induction l as [|x l IH]; cbn; [reflexivity|].
  rewrite inserir_In, IH. intuition.
Qed.

Lemma celulas_In (k : Z) (x : float) (s : Serie) :
  In x (ProcessData.celulas k s) <-> In (k, x) s.
Proof.
  unfold ProcessData.celulas. rewrite in_map_iff. split.
  - intros [[k' x'] [Hx Hin]]. cbn in Hx. subst x'.
    apply filter_In in Hin as [Hin Hk]. cbn in Hk. apply Z.eqb_eq in Hk.
    now subst k'.
  - intros Hin. exists (k, x). split; [reflexivity|].
    apply filter_In. split; [assumption|]. cbn. apply Z.eqb_refl.
Qed.

Lemma merge_outer_In (esq dir : Serie) (k : Z) (x y : float) :
  In (k, x, y) (ProcessData.merge_outer esq dir) <->
  (In (k, x) esq /\ In (k, y) dir) \/
  (In (k, x) esq /\ y = NaN /\ forall z, ~ In (k, z) dir) \/
  (In (k, y) dir /\ x = NaN /\ forall z, ~ In (k, z) esq).
Proof.
  unfold ProcessData.merge_outer. rewrite in_flat_map.
  assert (Hvazio : forall s, ProcessData.celulas k s = [] <->
                             forall z, ~ In (k, z) s).
  { intros s. split.
    - intros Hnil z Hz. apply celulas_In in Hz. rewrite Hnil in Hz. contradiction.
    - intros Hno. destruct (ProcessData.celulas k s) as [|z zs] eqn:Hc;
        [reflexivity|].
      exfalso. apply (Hno z). apply celulas_In. rewrite Hc. now left. }
  split.
  - intros [k' [Hk' Hin]].
    assert (k' = k).
    { destruct (ProcessData.celulas k' esq), (ProcessData.celulas k' dir);
        cbv beta iota in Hin.
      - apply in_map_iff in Hin as [? [Heq _]]. congruence.
      - apply in_map_iff in Hin as [? [Heq _]]. congruence.
      - apply in_map_iff in Hin as [? [Heq _]]. congruence.
      - apply in_flat_map in Hin as [? [_ Hin]].
        apply in_map_iff in Hin as [? [Heq _]]. congruence. }
    subst k'.
    destruct (ProcessData.celulas k esq) as [|x0 xs] eqn:Hxs;
      destruct (ProcessData.celulas k dir) as [|y0 ys] eqn:Hys.
    + apply in_map_iff in Hin as [? [_ []]].
    + apply in_map_iff in Hin as [y' [Heq Hy']]. inversion Heq; subst.
      right. right. repeat split.
      * apply celulas_In. now rewrite Hys.
      * now apply Hvazio.
    + apply in_map_iff in Hin as [x' [Heq Hx']]. inversion Heq; subst.
      right. left. repeat split.
      * apply celulas_In. now rewrite Hxs.
      * now apply Hvazio.
    + apply in_flat_map in Hin as [x' [Hx' Hin]].
      apply in_map_iff in Hin as [y' [Heq Hy']]. inversion Heq; subst.
      left. split; apply celulas_In; [now rewrite Hxs|now rewrite Hys].
  - intros Hcases. exists k. split.
    + apply chaves_ordenadas_In. apply in_or_app.
      destruct Hcases as [[Hx _]|[[Hx _]|[Hy _]]].
      * left. apply in_map_iff. now exists (k, x).
      * left. apply in_map_iff. now exists (k, x).
      * right. apply in_map_iff. now exists (k, y).
    + destruct Hcases as [[Hx Hy]|[[Hx [-> Hno]]|[Hy [-> Hno]]]].
      * apply celulas_In in Hx, Hy.
        destruct (ProcessData.celulas k esq) as [|x0 xs]; [contradiction|].
        destruct (ProcessData.celulas k dir) as [|y0 ys]; [contradiction|].
        apply in_flat_map. exists x. split; [assumption|].
        apply in_map_iff. now exists y.
      * apply celulas_In in Hx. apply Hvazio in Hno. rewrite Hno.
        destruct (ProcessData.celulas k esq) as [|x0 xs]; [contradiction|].
        apply in_map_iff. now exists x.
      * apply celulas_In in Hy. apply Hvazio in Hno. rewrite Hno.
        apply in_map_iff. now exists y.
Qed.

(** X15. The outer merge loses no reading: every rainfall cell and every
    level cell is in a row of the merged table under its own timestamp,
    and every row of the merged table comes from a reading of one of the
    two sources. *)
Theorem merge_outer_nada_perde (chuva nivel : Serie) :
  (forall t x, In (t, x) chuva ->
     exists y, In (t, x, y) (ProcessData.merge_outer chuva nivel)) /\
  (forall t y, In (t, y) nivel ->
     exists x, In (t, x, y) (ProcessData.merge_outer chuva nivel)) /\
  (forall t x y, In (t, x, y) (ProcessData.merge_outer chuva nivel) ->
     In (t, x) chuva \/ In (t, y) nivel).
Proof.
  split; [|split].
  - intros t x Hx.
    destruct (ProcessData.celulas t nivel) as [|y ys] eqn:Hys.
    + exists NaN. apply merge_outer_In. right. left. repeat split; try assumption.
      intros z Hz. apply celulas_In in Hz. rewrite Hys in Hz. contradiction.
    + exists y. apply merge_outer_In. left. split; [assumption|].
      apply celulas_In. rewrite Hys. now left.
  - intros t y Hy.
    destruct (ProcessData.celulas t chuva) as [|x xs] eqn:Hxs.
    + exists NaN. apply merge_outer_In. right. right. repeat split; try assumption.
      intros z Hz. apply celulas_In in Hz. rewrite Hxs in Hz. contradiction.
    + exists x. apply merge_outer_In. left. split; [|assumption].
      apply celulas_In. rewrite Hxs. now left.
  - intros t x y Hin. apply merge_outer_In in Hin.
    destruct Hin as [[Hx _]|[[Hx _]|[Hy _]]]; auto.
Qed.

Lemma skipn_py_range (j : nat) (lo hi : Z) :
  skipn j (py_range lo hi) = py_range (lo + Z.of_nat j) hi.
Proof.
  revert lo. induction j as [|j IH]; intros lo.
  - cbn [skipn]. f_equal. lia.
  - destruct (Z.lt_ge_cases lo hi) as [Hlt|Hge].
    + rewrite (py_range_cons lo hi) by assumption. cbn [skipn].
      rewrite IH. f_equal. lia.
    + rewrite !py_range_nil by lia. reflexivity.
Qed.

Lemma dias_cobertos_faixa (obs : Serie) :
  exists lo hi, dias_cobertos obs = py_range lo hi.
Proof.
  unfold dias_cobertos. destruct obs as [|[t v] r].
  - exists 0, 0. reflexivity.
  - eexists. eexists. reflexivity.
Qed.

Lemma ffill_desde_definido (q : Q) (l : list float) :
  forall x, In x (ffill_desde (Some q) l) -> notna x = true.
Proof.
  revert q. induction l as [|[p|] l IH]; intros q x; cbn [ffill_desde].
  - intros [].
  - intros [<-|Hin]; [reflexivity|]. now apply (IH p).
  - intros [<-|Hin]; [reflexivity|]. now apply (IH q).
Qed.

Lemma ffill_desde_length (u : float) (l : list float) :
  length (ffill_desde u l) = length l.
Proof.
  revert u. induction l as [|[q|] l IH]; intros u; cbn [ffill_desde length];
    [reflexivity| |]; now rewrite IH.
Qed.

(** The forward fill leaves a block of NaN at the head, one cell for each
    leading NaN, and defined cells after it. *)
Lemma ffill_forma (l : list float) :
  exists j l', ffill l = repeat NaN j ++ l' /\
               (forall x, In x l' -> notna x = true) /\
               (j + length l' = length l)%nat.
Proof.
  unfold ffill. induction l as [|[q|] l IH]; cbn [ffill_desde].
  - exists 0%nat, []. repeat split. intros x [].
  - exists 0%nat, (Some q :: ffill_desde (Some q) l). repeat split.
    + intros x [<-|Hin]; [reflexivity|]. now apply (ffill_desde_definido q l).
    + cbn [length]. now rewrite ffill_desde_length.
  - destruct IH as [j [l' [Heq [Hdef Hlen]]]].
    exists (S j), l'. unfold NaN in *. rewrite Heq. repeat split; try assumption.
    cbn [length]. lia.
Qed.

(** A cell that is defined before the fill is the same after it. *)
Lemma ffill_desde_mantem {A : Type} (ks : list A) (l : list float)
    (u : float) (k : A) (n : Q) :
  In (k, Some n) (combine ks l) -> In (k, Some n) (combine ks (ffill_desde u l)).
Proof.
  revert ks u. induction l as [|[q|] l IH]; intros ks u.
  - now destruct ks.
  - destruct ks as [|k0 ks]; [intros []|]. cbn [combine ffill_desde].
    intros [Heq|Hin]; [now left|right; now apply IH].
  - destruct ks as [|k0 ks]; [intros []|]. cbn [combine ffill_desde].
    intros [Heq|Hin]; [discriminate|right; now apply IH].
Qed.

Lemma finalizar_In (diario : list (Z * float * float)) (row : ProcessData.LinhaFinal) :
  In row (ProcessData.finalizar diario) <->
  exists d p n,
    In (d, p, Some n) (combine (map fst diario) (ffill (map snd diario))) /\
    row = ProcessData.mkLinhaFinal d p (Some (n / 100)%Q).
Proof.
  unfold ProcessData.finalizar. rewrite in_flat_map. split.
  - intros [[[d p] [n|]] [Hin Hrow]]; cbn [fst snd] in Hrow;
      [|contradiction].
    destruct Hrow as [<-|[]]. now exists d, p, n.
  - intros [d [p [n [Hin ->]]]]. exists (d, p, Some n). split; [assumption|].
    now left.
Qed.

Lemma finalizar_datas (ks : list (Z * float)) (j : nat) (l' : list float) :
  (forall x, In x l' -> notna x = true) ->
  (j + length l' = length ks)%nat ->
  map ProcessData.data
    (flat_map
       (fun l : Z * float * float =>
          match snd l with
          | Some n => [ProcessData.mkLinhaFinal (fst (fst l)) (snd (fst l))
                         (Some (n / 100)%Q)]
          | None => []
          end)
       (combine ks (repeat NaN j ++ l')))
  = skipn j (map fst ks).
Proof.
  revert ks. induction j as [|j IH]; intros ks Hdef Hlen.
  - cbn [repeat app skipn]. revert ks Hlen.
    induction l' as [|x l' IHl]; intros [|k ks] Hlen; cbn in Hlen;
      try lia; try reflexivity.
    cbn [combine flat_map map fst snd].
    assert (Hx : notna x = true) by (apply Hdef; now left).
    destruct x as [n|]; [|discriminate]. cbn [app map ProcessData.data].
    f_equal. apply IHl; [intros y Hy; apply Hdef; now right|lia].
  - destruct ks as [|k ks]; [cbn in Hlen; lia|].
    cbn [repeat app combine flat_map map skipn snd NaN].
    apply IH; [assumption|cbn in Hlen; lia].
Qed.

Section TabelaFinal.

Context `{Biblioteca}.

(** X16. The table returned by [processar_dados] covers consecutive
    calendar days, without a gap, and every row of it has a defined
    precipitation and a defined level. *)
Theorem processar_dados_dias_consecutivos
    (chuva : list ProcessData.LinhaChuva) (nivel : list ProcessData.LinhaNivel)
    (out : list ProcessData.LinhaFinal) :
  ProcessData.processar_dados chuva nivel = Ok out ->
  (exists a b, map ProcessData.data out = py_range a b) /\
  (forall row, In row out ->
     exists p n, ProcessData.precipitacao_mm row = Some p /\
                 ProcessData.nivel_m row = Some n).
Proof.
  unfold ProcessData.processar_dados.
  destruct (ProcessData.df_chuva chuva) as [c|e]; cbn [ligar]; [|discriminate].
  destruct (ProcessData.df_nivel nivel) as [n|e]; cbn [ligar]; [|discriminate].
  destruct chuva as [|c0 chuva]; [discriminate|].
  destruct nivel as [|n0 nivel]; [discriminate|].
  intros Heq. inversion Heq as [Hout]. clear Heq.
  set (diario := ProcessData.df_diario (ProcessData.merge_outer c n)).
  split.
  - unfold ProcessData.finalizar. fold diario.
    destruct (ffill_forma (map snd diario)) as [j [l' [Hff [Hdef Hlen]]]].
    rewrite Hff, finalizar_datas;
      [|assumption|now rewrite Hlen, !length_map].
    unfold diario, ProcessData.df_diario. rewrite !map_map. cbn [fst].
    rewrite <- (map_map fst (fun x => x)), map_id, resample_sum_dias.
    destruct (dias_cobertos_faixa
                (map (fun r => (fst (fst r), snd (fst r)))
                     (ProcessData.merge_outer c n))) as [lo [hi ->]].
    rewrite skipn_py_range. eauto.
  - intros row Hrow. apply finalizar_In in Hrow as [d [p [m [Hin ->]]]].
    cbn [ProcessData.precipitacao_mm ProcessData.nivel_m].
    apply in_combine_l in Hin. fold diario in Hin.
    apply in_map_iff in Hin as [[[d' p'] n'] [Heq Hin]]. cbn in Heq.
    inversion Heq; subst. unfold diario, ProcessData.df_diario in Hin.
    apply in_map_iff in Hin as [[d2 p2] [Heq2 Hin]]. cbn in Heq2.
    inversion Heq2; subst. apply resample_sum_In in Hin as [_ ->]. eauto.
Qed.

(** X17. The forward fill does not touch a day that has its own level: a
    day of the daily table with a mean level is in the returned table
    with that mean, in metres. *)
Theorem processar_dados_mantem_medias
    (comb : list (Z * float * float)) (d : Z) (p : float) (n : Q) :
  In (d, p, Some n) (ProcessData.df_diario comb) ->
  In (ProcessData.mkLinhaFinal d p (Some (n / 100)%Q))
     (ProcessData.finalizar (ProcessData.df_diario comb)).
Proof.
  intros Hin. apply finalizar_In. exists d, p, n. split; [|reflexivity].
  unfold ffill. apply ffill_desde_mantem.
  set (diario := ProcessData.df_diario comb) in *.
  clear -Hin. induction diario as [|[[d' p'] n'] diario IH]; [contradiction|].
  cbn [map combine fst snd]. destruct Hin as [Heq|Hin].
  - inversion Heq; subst. now left.
  - right. now apply IH.
Qed.

End TabelaFinal.

(** ** Cleaning the measurement text and the hour code *)

Lemma prefix_outro_inicio (c x : ascii) (old r : string) :
  Ascii.eqb x c = false -> String.prefix (String c old) (String x r) = false.
Proof.
  intros Hne. cbn [String.prefix].
  destruct (ascii_dec c x) as [->|_]; [|reflexivity].
  now rewrite Ascii.eqb_refl in Hne.
Qed.

(** Text without the first character of [old] goes through the
    replacement unchanged, up to the rest of the text. *)
Lemma str_replace_aux_sem (c : ascii) (old new a rest : string) :
  sem_caractere c a = true ->
  str_replace_aux (String c old) new 0 (String.append a rest)
  = String.append a (str_replace_aux (String c old) new 0 rest).
Proof.
  induction a as [|x a IH]; cbn [sem_caractere String.append]; intros Hs;
    [reflexivity|].
  apply andb_true_iff in Hs as [Hx Ha]. apply negb_true_iff in Hx.
  cbn [str_replace_aux]. rewrite prefix_outro_inicio by assumption.
  now rewrite IH.
Qed.

Lemma append_nil_r (s : string) : String.append s EmptyString = s.
Proof.
  induction s as [|c s IH]; cbn; [reflexivity|]. now rewrite IH.
Qed.

Lemma str_replace_aux_intacto (c : ascii) (old new a : string) :
  sem_caractere c a = true ->
  str_replace_aux (String c old) new 0 a = a.
Proof.
  intros Hs. rewrite <- (append_nil_r a) at 1.
  rewrite str_replace_aux_sem by assumption. cbn [str_replace_aux].
  apply append_nil_r.
Qed.

(** X18. A measurement written with a decimal comma and the unit suffix,
    as the river file has it, is cleaned to the same digits with a
    decimal point and without the suffix. *)
Theorem limpar_medicao_virgula_e_unidade (a b : string) :
  sem_caractere "," a = true -> sem_caractere " " a = true ->
  sem_caractere "," b = true -> sem_caractere " " b = true ->
  Processamento.limpar_medicao
    (String.append a (String.append "," (String.append b " m")))
  = String.append a (String.append "." b).
Proof.
  intros Hva Hea Hvb Heb. unfold Processamento.limpar_medicao, str_replace.
  assert (H1 : str_replace_aux " m" "" 0
                 (String.append a (String.append "," (String.append b " m")))
               = String.append a (String.append "," b)).
  { rewrite (str_replace_aux_sem " " "m" "" a) by assumption. f_equal.
    change (String.append "," (String.append b " m"))
      with (String "," (String.append b " m")).
    cbn [str_replace_aux].
    rewrite (prefix_outro_inicio " " "," "m") by reflexivity.
    cbn [String.append]. f_equal.
    rewrite (str_replace_aux_sem " " "m" "" b) by assumption.
    cbn. now rewrite append_nil_r. }
  rewrite H1.
  rewrite (str_replace_aux_sem "," "" "." a) by assumption. f_equal.
  change (String.append "," b) with (String "," b).
  cbn [str_replace_aux String.prefix String.length Nat.sub].
  destruct (ascii_dec "," ",") as [_|Hne]; [|now elim Hne].
  assert (Hp : String.prefix "" b = true) by now destruct b.
  rewrite Hp. cbn [String.append]. f_equal.
  now apply (str_replace_aux_intacto "," "" "." b).
Qed.

Lemma zfill_digito (w : nat) (c : ascii) (r : string) :
  Horario.e_digito c = true ->
  zfill w (String c r)
  = String.append (zeros (w - String.length (String c r))) (String c r).
Proof.
  intros Hd. unfold zfill.
  destruct c as [[] [] [] [] [] [] [] []]; try discriminate Hd; reflexivity.
Qed.

Lemma digitos_iniciais_fim (suf : string) :
  sem_digito_inicial suf = true -> Horario.digitos_iniciais suf = EmptyString.
Proof.
  destruct suf as [|c suf]; cbn; [reflexivity|].
  intros Hc. apply negb_true_iff in Hc. now rewrite Hc.
Qed.

(** X19. The hour code of the rainfall files. Four digits followed by
    anything that does not start with a digit (such as " UTC") give
    "HH:MM"; shorter codes are padded with zeros on the left first; a
    text without any digit gives no hour at all. *)
Theorem hora_formatada_codigo (c1 c2 c3 c4 : ascii) (suf : string) :
  Horario.e_digito c1 = true -> Horario.e_digito c2 = true ->
  Horario.e_digito c3 = true -> Horario.e_digito c4 = true ->
  sem_digito_inicial suf = true ->
  Horario.hora_formatada (String c1 (String c2 (String c3 (String c4 suf))))
  = Some (String c1 (String c2 (String ":" (String c3 (String c4 "")))))
  /\
  Horario.hora_formatada (String c1 (String c2 (String c3 suf)))
  = Some (String "0" (String c1 (String ":" (String c2 (String c3 "")))))
  /\
  Horario.hora_formatada (String c1 suf)
  = Some (String "0" (String "0" (String ":" (String "0" (String c1 "")))))
  /\
  (forall data s, sem_digitos s = true ->
     Horario.hora_formatada s = None /\
     Horario.texto_timestamp data s = None).
Proof.
  intros H1 H2 H3 H4 Hs. unfold Horario.hora_formatada.
  repeat split.
  - cbn [Horario.extrair_digitos Horario.digitos_iniciais].
    rewrite H1, H2, H3, H4, (digitos_iniciais_fim suf Hs).
    rewrite zfill_digito by assumption. reflexivity.
  - cbn [Horario.extrair_digitos Horario.digitos_iniciais].
    rewrite H1, H2, H3, (digitos_iniciais_fim suf Hs).
    rewrite zfill_digito by assumption. reflexivity.
  - cbn [Horario.extrair_digitos Horario.digitos_iniciais].
    rewrite H1, (digitos_iniciais_fim suf Hs).
    rewrite zfill_digito by assumption. reflexivity.
  - assert (Hn : Horario.extrair_digitos s = None).
    { induction s as [|x s IH]; [reflexivity|].
      cbn [sem_digitos] in H. apply andb_true_iff in H as [Hx Hr].
      apply negb_true_iff in Hx. cbn [Horario.extrair_digitos].
      rewrite Hx. now apply IH. }
    now rewrite Hn.
  - assert (Hn : Horario.extrair_digitos s = None).
    { induction s as [|x s IH]; [reflexivity|].
      cbn [sem_digitos] in H. apply andb_true_iff in H as [Hx Hr].
      apply negb_true_iff in Hx. cbn [Horario.extrair_digitos].
      rewrite Hx. now apply IH. }
    unfold Horario.texto_timestamp, Horario.hora_formatada. now rewrite Hn.
Qed.

(** ** The further properties on concrete tables *)

Open Scope string_scope.
Open Scope Z_scope.

Lemma chuva_acumulada_so_linhas_anteriores_witness :
  nth 3 (App.chuva_acumulada Casos.df_exemplo 2) NaN
  = nth 3 (App.chuva_acumulada CasosExtra.df_outra_chuva_hoje 2) NaN.
Proof.
  apply (chuva_acumulada_so_linhas_anteriores
           Casos.df_exemplo CasosExtra.df_outra_chuva_hoje 2 3).
  - vm_compute. lia.
  - vm_compute. lia.
  - vm_compute. reflexivity.
Defined.

Lemma chuva_acumulada_inicio_indefinido_witness :
  length (App.chuva_acumulada Casos.df_exemplo 3) = length Casos.df_exemplo /\
  nth 2 (App.chuva_acumulada Casos.df_exemplo 3) NaN = NaN.
Proof.
  apply (chuva_acumulada_inicio_indefinido Casos.df_exemplo 3 2).
  - lia.
  - vm_compute. lia.
  - vm_compute. reflexivity.
Defined.

Lemma lag_menor_que_linhas_witness :
  2 < Z.of_nat (length Casos.df_exemplo) /\
  App.calcular_correlacao_com_lag [mkLinha 1 (Some 1%Q) (Some 2%Q)] 5 = None.
Proof.
  split.
  - apply (proj1 (lag_menor_que_linhas Casos.df_exemplo 3)
                 Casos.resultado_exemplo 2 (Some (9 # 35))).
    + vm_compute. reflexivity.
    + vm_compute. auto.
  - apply (proj2 (lag_menor_que_linhas [mkLinha 1 (Some 1%Q) (Some 2%Q)] 5)).
    vm_compute. lia.
Defined.

Lemma correlacoes_exatas_witness :
  crescente (dict_keys (App.correlacoes Casos.resultado_exemplo)) /\
  forall k,
    dict_get (App.correlacoes Casos.resultado_exemplo) k
    = if (1 <=? k) && (k <=? 3) && notna (coef Casos.df_exemplo k)
      then Some (coef Casos.df_exemplo k) else None.
Proof.
  apply (correlacoes_exatas Casos.df_exemplo 3 Casos.resultado_exemplo).
  vm_compute. reflexivity.
Defined.

Lemma sem_resultado_sse_witness :
  App.calcular_correlacao_com_lag Casos.df_exemplo 0 = None.
Proof.
  apply (proj2 (sem_resultado_sse Casos.df_exemplo 0)). lia.
Defined.

Lemma mais_lags_nao_piora_witness :
  exists r' novos,
    App.calcular_correlacao_com_lag Casos.df_exemplo 3 = Some r' /\
    App.correlacoes r' = (App.correlacoes CasosExtra.resultado_max_lag_2 ++ novos)%list /\
    fle (App.melhor_corr CasosExtra.resultado_max_lag_2) (App.melhor_corr r').
Proof.
  apply (mais_lags_nao_piora Casos.df_exemplo 2 3 CasosExtra.resultado_max_lag_2).
  - lia.
  - vm_compute. reflexivity.
Defined.

Lemma calcular_ignora_datas_witness :
  App.calcular_correlacao_com_lag Casos.df_exemplo 3
  = App.calcular_correlacao_com_lag CasosExtra.df_outras_datas 3.
Proof.
  apply (calcular_ignora_datas Casos.df_exemplo CasosExtra.df_outras_datas 3).
  - vm_compute. reflexivity.
  - vm_compute. reflexivity.
Defined.

Lemma grafico_mostra_o_melhor_lag_witness :
  1 <= App.melhor_lag Casos.resultado_exemplo <= 3 /\
  App.melhor_corr Casos.resultado_exemplo
  = corr (map Nivel_m Casos.df_exemplo)
         (Painel.Chuva_Acumulada Casos.df_exemplo
            (App.melhor_lag Casos.resultado_exemplo)) /\
  notna (App.melhor_corr Casos.resultado_exemplo) = true.
Proof.
  apply (grafico_mostra_o_melhor_lag Casos.df_exemplo 3 Casos.resultado_exemplo).
  vm_compute. reflexivity.
Defined.

Lemma exibe_resultado_sse_witness :
  Painel.exibe_resultado Casos.df_exemplo = true.
Proof.
  apply (proj1 (exibe_resultado_sse Casos.df_exemplo)).
  exists 2. split; [lia|]. vm_compute. reflexivity.
Defined.


Lemma series_diarias_crescentes_witness :
  crescente (map fst CasosExtra.rio_diario) /\
  crescente (map fst CasosExtra.clima_diario).
Proof.
  split.
  - apply (proj1 series_diarias_crescentes Casos.rio_exemplo).
    vm_compute. reflexivity.
  - apply (proj2 series_diarias_crescentes Casos.clima_exemplo).
    vm_compute. reflexivity.
Defined.

Lemma consolidar_uma_linha_por_dia_witness :
  exists t, Processamento.consolidar Casos.rio_exemplo Casos.clima_exemplo = Ok t /\
    map Data t = map fst CasosExtra.rio_diario /\
    map Nivel_m t = map snd CasosExtra.rio_diario /\
    crescente (map Data t).
Proof.
  apply (consolidar_uma_linha_por_dia Casos.rio_exemplo Casos.clima_exemplo
           CasosExtra.rio_diario CasosExtra.clima_diario).
  - vm_compute. reflexivity.
  - vm_compute. reflexivity.
Defined.

Lemma consolidar_conteudo_witness :
  exists t, Processamento.consolidar Casos.rio_exemplo Casos.clima_exemplo = Ok t /\
    forall d n p, In (mkLinha d n p) t <->
      let do_dia (obs : Serie) :=
        flat_map (fun o => match snd o with
                           | Some q => if (fst o / 86400 =? d)%Z then [q] else []
                           | None => []
                           end) obs in
      (exists tm q, In (tm, Some q) Casos.obs_rio_exemplo /\ (tm / 86400 = d)%Z) /\
      n = Some (fold_right Qplus 0%Q (do_dia Casos.obs_rio_exemplo)
                / inject_Z (Z.of_nat (length (do_dia Casos.obs_rio_exemplo))))%Q /\
      p = Some (fold_right Qplus 0%Q (do_dia Casos.obs_clima_exemplo)).
Proof.
  apply (consolidar_conteudo Casos.rio_exemplo Casos.clima_exemplo
           Casos.obs_rio_exemplo Casos.obs_clima_exemplo).
  - vm_compute. reflexivity.
  - vm_compute. reflexivity.
Defined.

Lemma merge_outer_nada_perde_witness :
  (exists y, In (0, Some 1%Q, y)
               (ProcessData.merge_outer CasosExtra.serie_chuva
                                        CasosExtra.serie_nivel)) /\
  (exists x, In (7200, x, Some 160%Q)
               (ProcessData.merge_outer CasosExtra.serie_chuva
                                        CasosExtra.serie_nivel)) /\
  (In (3600, Some 2%Q) CasosExtra.serie_chuva \/
   In (3600, Some 150%Q) CasosExtra.serie_nivel).
Proof.
  pose proof (merge_outer_nada_perde CasosExtra.serie_chuva CasosExtra.serie_nivel)
    as [H1 [H2 H3]].
  split; [|split].
  - apply H1. vm_compute. auto.
  - apply H2. vm_compute. auto.
  - apply H3. vm_compute. auto.
Defined.

Lemma processar_dados_dias_consecutivos_witness :
  (exists a b, map ProcessData.data CasosExtra.tabela_api = py_range a b) /\
  (forall row, In row CasosExtra.tabela_api ->
     exists p n, ProcessData.precipitacao_mm row = Some p /\
                 ProcessData.nivel_m row = Some n).
Proof.
  apply (processar_dados_dias_consecutivos CasosExtra.chuva_api
           Casos.nivel_exemplo CasosExtra.tabela_api).
  vm_compute. reflexivity.
Defined.

Lemma processar_dados_mantem_medias_witness :
  In (ProcessData.mkLinhaFinal 0 (Some 3%Q) (Some ((310 # 2) / 100)%Q))
     (ProcessData.finalizar
        (ProcessData.df_diario
           (ProcessData.merge_outer CasosExtra.serie_chuva
                                    CasosExtra.serie_nivel))).
Proof.
  apply (processar_dados_mantem_medias
           (ProcessData.merge_outer CasosExtra.serie_chuva CasosExtra.serie_nivel)
           0 (Some 3%Q) (310 # 2)).
  vm_compute. auto.
Defined.

Lemma limpar_medicao_virgula_e_unidade_witness :
  Processamento.limpar_medicao "1,25 m" = "1.25".
Proof.
  apply (limpar_medicao_virgula_e_unidade "1" "25"); reflexivity.
Defined.

Lemma hora_formatada_codigo_witness :
  Horario.hora_formatada "0100 UTC" = Some "01:00" /\
  Horario.hora_formatada "010 UTC" = Some "00:10" /\
  Horario.hora_formatada "0 UTC" = Some "00:00" /\
  (forall data s, sem_digitos s = true ->
     Horario.hora_formatada s = None /\
     Horario.texto_timestamp data s = None).
Proof.
  apply (hora_formatada_codigo "0" "1" "0" "0" " UTC"); reflexivity.
Defined.
